(** * udev.c: the hotplug dispatcher and the query command line

    A shallow embedding of [src/udev.c].  The two entry paths,
    [udev_hotplug] and [udev_user], and the selector in [main] are
    transcribed statement by statement.  Effects (standard output, [dbg]
    tracing, calls to the naming engine, the device database and the
    message bus) are threaded through a small state-and-trace monad.

    Left out: the asynchronous delivery of signals to [sig_handler] (its
    installation is an event of the trace), the globals [main_argv] and
    [main_envp], which are only written, and what [getopt] writes to the
    standard error stream. *)

From Stdlib Require Import String Ascii List ZArith Lia Bool DecimalString.
Import ListNotations.
Local Open Scope string_scope.
Local Open Scope Z_scope.

(** ** C integers and error numbers *)

(** [int] is 32 bits wide; values are kept in [Z] and the one arithmetic
    operation the file performs on a result code, unary minus, wraps in
    two's complement. *)
Definition INT_MIN : Z := - 2 ^ 31.
Definition INT_MAX : Z := 2 ^ 31 - 1.

Definition int_wrap (z : Z) : Z := (z + 2 ^ 31) mod 2 ^ 32 - 2 ^ 31.

Definition int_neg (z : Z) : Z := int_wrap (- z).

(** <errno.h> on Linux. *)
Definition EACCES : Z := 13.
Definition EINVAL : Z := 22.

(** ** C strings

    A C string is a [string]; it holds no NUL character, so
    [strcmp (a, b) == 0] is equality of the two strings. *)

Definition newline : string := String "010"%char EmptyString.

(** [strcmp (a, b) == 0] *)
Definition strcmp_eq0 (a b : string) : bool := String.eqb a b.

(** [strstr (haystack, needle) != NULL] *)
Fixpoint strstr (haystack needle : string) : bool :=
  if String.prefix needle haystack then true
  else match haystack with
       | EmptyString => false
       | String _ rest => strstr rest needle
       end.

(** The first [n] characters of [s]: what [strncpy] and [strncat] read
    from their source. *)
Fixpoint take_chars (n : nat) (s : string) : string :=
  match n, s with
  | S n', String c rest => String c (take_chars n' rest)
  | _, _ => EmptyString
  end.

(** [strncat (dest, src, n)]: [dest] followed by at most [n] characters of
    [src].  The capacity of [dest] is not part of the model. *)
Definition strncat (dest src : string) (n : nat) : string :=
  dest ++ take_chars n src.

(** [s[0] == c] *)
Definition first_char_is (c : ascii) (s : string) : bool :=
  match s with
  | EmptyString => false
  | String c0 _ => Ascii.eqb c0 c
  end.

(** ** getopt(3)

    [getopt] belongs to the C library.  The results of its successive
    calls on one argument vector are modelled as a list, in call order:
    each entry is the returned option character together with the value
    left in [optarg].  The list ends where [getopt] returns -1.  The GNU
    behaviour is followed: options may be clustered, an option argument
    is the rest of its cluster or the next element, an unknown option or
    a missing argument yields ['?'] and the element [--] ends the scan.
    A non-option element is skipped, unless POSIXLY_CORRECT is set in the
    environment: then the scan ends at the first non-option element. *)

Inductive opt_spec : Type := NoSuchOption | Flag | WithArg.

Fixpoint optstring_lookup (optstring : string) (c : ascii) : opt_spec :=
  match optstring with
  | EmptyString => NoSuchOption
  | String o rest =>
      if Ascii.eqb o c && negb (Ascii.eqb c ":")
      then (if first_char_is ":" rest then WithArg else Flag)
      else optstring_lookup rest c
  end.

Definition getopt_result : Type := (ascii * string)%type.

Definition question_mark : getopt_result := ("?"%char, EmptyString).

(** One element [-xyz]: the results for the cluster [xyz], and the option
    that still waits for its argument when the cluster ends on it. *)
Fixpoint scan_cluster (optstring cluster : string)
  : list getopt_result * option ascii :=
  match cluster with
  | EmptyString => ([], None)
  | String c rest =>
      match optstring_lookup optstring c with
      | NoSuchOption =>
          let (rs, pending) := scan_cluster optstring rest in
          (question_mark :: rs, pending)
      | Flag =>
          let (rs, pending) := scan_cluster optstring rest in
          ((c, EmptyString) :: rs, pending)
      | WithArg =>
          match rest with
          | EmptyString => ([], Some c)
          | String _ _ => ([(c, rest)], None)
          end
      end
  end.

(** The cluster of an option element: [Some "xyz"] for [-xyz], [None] for
    a non-option element (which includes the lone [-]). *)
Definition option_cluster (arg : string) : option string :=
  match arg with
  | String c (String c1 rest) =>
      if Ascii.eqb c "-" then Some (String c1 rest) else None
  | _ => None
  end.

Fixpoint getopt_results (posixly_correct : bool) (optstring : string)
  (args : list string) : list getopt_result :=
  match args with
  | [] => []
  | arg :: rest =>
      if String.eqb arg "--" then []
      else
        match option_cluster arg with
        | None =>
            if posixly_correct then []
            else getopt_results posixly_correct optstring rest
        | Some cluster =>
            let (rs, pending) := scan_cluster optstring cluster in
            match pending with
            | None =>
                (rs ++ getopt_results posixly_correct optstring rest)%list
            | Some c =>
                match rest with
                | [] => (rs ++ [question_mark])%list
                | value :: rest' =>
                    (rs ++ (c, value)
                        :: getopt_results posixly_correct optstring rest')%list
                end
            end
        end
  end.

(** ** Data model *)

(** [struct udevice] (udev.h): the fields this file reads, each a [char]
    array printed with [%s]. *)
Record udevice : Type := mk_udevice {
  name : string;
  symlink : string;
  owner : string;
  group : string
}.

(** The persistent device database: records keyed by sysfs path, kept in
    the order in which the paths were first stored. *)
Definition database : Type := list (string * udevice).

Fixpoint db_lookup (path : string) (d : database) : option udevice :=
  match d with
  | [] => None
  | (p, dev) :: rest => if String.eqb p path then Some dev else db_lookup path rest
  end.

Fixpoint db_insert_or_update (path : string) (dev : udevice) (d : database)
  : database :=
  match d with
  | [] => [(path, dev)]
  | (p, old) :: rest =>
      if String.eqb p path then (p, dev) :: rest
      else (p, old) :: db_insert_or_update path dev rest
  end.

Fixpoint db_remove (path : string) (d : database) : database :=
  match d with
  | [] => []
  | (p, dev) :: rest =>
      if String.eqb p path then db_remove path rest
      else (p, dev) :: db_remove path rest
  end.

Inductive query_type : Type := NONE | NAME | SYMLINK | OWNER | GROUP.

Inductive signal_number : Type := SIGINT | SIGTERM | SIGKILL.

Inductive udevdb_mode : Type := UDEVDB_DEFAULT.

(** What one run of the program does to the outside, in order. *)
Inductive event : Type :=
| Dbg (message : string)
| Printf (text : string)
| Call_udev_init_config
| Call_sysbus_connect
| Call_sysbus_disconnect
| Call_udevdb_init (mode : udevdb_mode)
| Call_udevdb_open_ro
| Call_udevdb_exit
| Call_udevdb_get_dev (path : string)
| Call_udevdb_dump
| Call_signal (signum : signal_number)
| Call_namedev_init
| Call_udev_add_device (devpath subsystem : string)
| Call_udev_remove_device (devpath subsystem : string).

(** The events that touch the device database. *)
Definition database_event (e : event) : bool :=
  match e with
  | Call_udevdb_init _ | Call_udevdb_open_ro | Call_udevdb_exit
  | Call_udevdb_get_dev _ | Call_udevdb_dump
  | Call_udev_add_device _ _ | Call_udev_remove_device _ _ => true
  | _ => false
  end.

(** The events that act on anything outside the process except the
    trace: every collaborator call and every line printed. *)
Definition action_event (e : event) : bool :=
  match e with
  | Dbg _ => false
  | _ => true
  end.

Definition printed (trace : list event) : list string :=
  flat_map (fun e => match e with Printf text => [text] | _ => [] end) trace.

(** What a run is given: the process environment, the configuration, the
    constants of headers that are not part of this file, and the outcome
    of every collaborator call that is reported as an [int]. *)
Record world : Type := mk_world {
  environ : list (string * string);
  udev_root : string;
  UDEV_VERSION : string;
  NAME_SIZE : nat;
  namedev_rules : string -> string -> udevice;
  udevdb_init_result : Z;
  udevdb_open_ro_result : Z;
  udevdb_dump_result : Z;
  udevdb_get_dev_errno : positive;
  udev_add_device_result : Z;
  udev_remove_device_result : Z
}.

(** What a run changes: the database and whether the process holds the
    database handle. *)
Record state : Type := mk_state {
  db : database;
  db_open : bool
}.

(** ** The monad: state passing with a trace of events *)

Definition M (A : Type) : Type := state -> A * state * list event.

Definition ret {A : Type} (a : A) : M A := fun s => (a, s, []).

Definition bind {A B : Type} (m : M A) (k : A -> M B) : M B :=
  fun s =>
    let '(a, s1, t1) := m s in
    let '(b, s2, t2) := k a s1 in
    (b, s2, (t1 ++ t2)%list).

Notation "x <- m ;; k" := (bind m (fun x => k))
  (at level 61, m at next level, right associativity).
Notation "m ;; k" := (bind m (fun _ => k))
  (at level 61, right associativity).

Definition emit (e : event) : M unit := fun s => (tt, s, [e]).

Definition dbg (message : string) : M unit := emit (Dbg message).

Definition printf (text : string) : M unit := emit (Printf text).

Definition result_of {A : Type} (r : A * state * list event) : A := fst (fst r).
Definition state_of {A : Type} (r : A * state * list event) : state := snd (fst r).
Definition trace_of {A : Type} (r : A * state * list event) : list event := snd r.

(** ** Libc and header macros used by the file *)

Fixpoint getenv_from (env : list (string * string)) (var : string)
  : option string :=
  match env with
  | [] => None
  | (k, v) :: rest => if String.eqb k var then Some v else getenv_from rest var
  end.

Definition getenv (w : world) (var : string) : option string :=
  getenv_from (environ w) var.

Definition signal (signum : signal_number) : M unit :=
  emit (Call_signal signum).

(** POSIXLY_CORRECT is set in the environment, to whatever value. *)
Definition posixly_correct (w : world) : bool :=
  match getenv w "POSIXLY_CORRECT" with
  | Some _ => true
  | None => false
  end.

(** What the successive calls [getopt (argc, argv, optstring)] return in
    the world [w]; [argv[0]] is not scanned. *)
Definition getopt (w : world) (optstring : string) (argv : list string)
  : list getopt_result :=
  getopt_results (posixly_correct w) optstring (tl argv).

(** Modelled from the spec: the macro [strfieldcpy] of udev.h is not under
    src/ and the spec speaks of the copied value only.  Its destinations
    here are [char] arrays of [NAME_SIZE] bytes, so it is taken as the
    copy that keeps what such an array can hold: at most [NAME_SIZE - 1]
    characters. *)
Definition strfieldcpy (w : world) (from : string) : string :=
  take_chars (NAME_SIZE w - 1) from.

(** ** Collaborators *)

(** Modelled from the spec: [udev_init_config] (configuration set-up, not
    under src/) leaves the device root in [udev_root]. *)
Definition udev_init_config : M unit := emit Call_udev_init_config.

(** Modelled from the spec: the bus [connect ()] and [disconnect ()] (not
    under src/) are best-effort and report nothing. *)
Definition sysbus_connect : M unit := emit Call_sysbus_connect.
Definition sysbus_disconnect : M unit := emit Call_sysbus_disconnect.

(** Modelled from the spec: the naming engine's [initialize ()] (not under
    src/) loads the rules that add and remove use. *)
Definition namedev_init : M unit := emit Call_namedev_init.

(** Modelled from the spec: [open_read_write (mode)] of the database (not
    under src/).  It reports an [int], 0 for success, and the handle is
    held exactly when it succeeds. *)
Definition udevdb_init (w : world) (mode : udevdb_mode) : M Z :=
  fun s =>
    (udevdb_init_result w,
     if udevdb_init_result w =? 0 then mk_state (db s) true else s,
     [Call_udevdb_init mode]).

(** Modelled from the spec: [open_read_only ()] of the database (not under
    src/), as [udevdb_init]. *)
Definition udevdb_open_ro (w : world) : M Z :=
  fun s =>
    (udevdb_open_ro_result w,
     if udevdb_open_ro_result w =? 0 then mk_state (db s) true else s,
     [Call_udevdb_open_ro]).

(** Modelled from the spec: [close ()] of the database (not under src/)
    releases the handle. *)
Definition udevdb_exit : M unit :=
  fun s => (tt, mk_state (db s) false, [Call_udevdb_exit]).

(** Modelled from the spec: [lookup (path) -> record?] of the database (not
    under src/).  A record found is stored through the pointer and 0 is
    returned; otherwise the pointee is left as it was and the negated
    error number of the lookup is returned. *)
Definition udevdb_get_dev (w : world) (path : string) (dev : udevice)
  : M (Z * udevice) :=
  fun s =>
    (match db_lookup path (db s) with
     | Some found => (0, found)
     | None => (Z.neg (udevdb_get_dev_errno w), dev)
     end,
     s, [Call_udevdb_get_dev path]).

(** Modelled from the spec: [for_each (record_visitor)] of the database
    (not under src/) visits every record in the database's order and
    reports an [int]. *)
Fixpoint for_each_record (visitor : string -> udevice -> M unit) (d : database)
  : M unit :=
  match d with
  | [] => ret tt
  | (p, dev) :: rest => visitor p dev ;; for_each_record visitor rest
  end.

Definition udevdb_dump (w : world) (visitor : string -> udevice -> M unit)
  : M Z :=
  emit Call_udevdb_dump ;;
  (fun s => for_each_record visitor (db s) s) ;;
  ret (udevdb_dump_result w).

(** Modelled from the spec: add-device (not under src/) has the naming
    engine decide the record for [devpath] and [subsystem] and stores it
    with [insert_or_update]; the [int] it reports is the world's. *)
Definition udev_add_device (w : world) (devpath subsystem : string) : M Z :=
  fun s =>
    (udev_add_device_result w,
     mk_state (db_insert_or_update devpath (namedev_rules w devpath subsystem)
                                  (db s))
              (db_open s),
     [Call_udev_add_device devpath subsystem]).

(** Modelled from the spec: remove-device (not under src/) takes the
    record of [devpath] out of the database with [remove]; the [int] it
    reports is the world's. *)
Definition udev_remove_device (w : world) (devpath subsystem : string) : M Z :=
  fun s =>
    (udev_remove_device_result w,
     mk_state (db_remove devpath (db s)) (db_open s),
     [Call_udev_remove_device devpath subsystem]).

(** ** udev.c *)

(** <signal.h> on Linux. *)
Definition signo (sig : signal_number) : Z :=
  match sig with
  | SIGINT => 2
  | SIGKILL => 9
  | SIGTERM => 15
  end.

(** [%d] *)
Definition decimal (z : Z) : string := NilZero.string_of_int (Z.to_int z).

(** [sig_handler]: [Some status] when the handler ends the process with
    [exit (status)], [None] when it returns. *)
Definition sig_handler (signum : Z) : M (option Z) :=
  dbg ("caught signal " ++ decimal signum) ;;
  if (signum =? signo SIGINT) || (signum =? signo SIGTERM)
     || (signum =? signo SIGKILL)
  then
    sysbus_disconnect ;;
    udevdb_exit ;;
    ret (Some (20 + signum))
  else
    dbg "unhandled signal" ;;
    ret None.

Definition get_action (w : world) : option string := getenv w "ACTION".

Definition get_devpath (w : world) : option string := getenv w "DEVPATH".

Definition get_seqnum (w : world) : option string := getenv w "SEQNUM".

Definition print_record (path : string) (dev : udevice) : M unit :=
  printf ("P: " ++ path ++ newline) ;;
  printf ("N: " ++ name dev ++ newline) ;;
  printf ("S: " ++ symlink dev ++ newline) ;;
  printf ("O: " ++ owner dev ++ newline) ;;
  printf ("G: " ++ group dev ++ newline) ;;
  printf newline.

Definition short_options : string := "dp:q:rVh".

Definition usage_text : string :=
  "Usage: [-pqrdVh]" ++ newline ++
  "  -q TYPE  query database for the specified value:" ++ newline ++
  "             'name'    name of device node" ++ newline ++
  "             'symlink' pointing to node" ++ newline ++
  "             'owner'   of node" ++ newline ++
  "             'group'   of node" ++ newline ++
  "  -p PATH  sysfs device path used for query" ++ newline ++
  "  -r       print udev root" ++ newline ++
  "  -d       dump whole database" ++ newline ++
  "  -V       print udev version" ++ newline ++
  "  -h       print this help text" ++ newline ++
  newline.

(** The locals of [udev_user] that live across the option loop. *)
Record locals : Type := mk_locals {
  retval : Z;
  root : bool;
  query : query_type;
  path : string
}.

Definition initial_locals : locals := mk_locals (- EINVAL) false NONE EmptyString.

(** How the option loop is left: by a [return], by [goto help], or by the
    [break] taken when [getopt] returns -1. *)
Inductive loop_exit : Type :=
| Return (status : Z)
| Goto_help (l : locals)
| Loop_end (l : locals).

Fixpoint option_loop (w : world) (results : list getopt_result) (l : locals)
  : M loop_exit :=
  match results with
  | [] => ret (Loop_end l)
  | (option, optarg) :: rest =>
      dbg ("option '" ++ String option "'") ;;
      if Ascii.eqb option "p" then
        dbg ("udev path: " ++ optarg ++ newline) ;;
        option_loop w rest
          (mk_locals (retval l) (root l) (query l) (strfieldcpy w optarg))
      else if Ascii.eqb option "q" then
        dbg ("udev query: " ++ optarg ++ newline) ;;
        if strcmp_eq0 optarg "name" then
          option_loop w rest (mk_locals (retval l) (root l) NAME (path l))
        else if strcmp_eq0 optarg "symlink" then
          option_loop w rest (mk_locals (retval l) (root l) SYMLINK (path l))
        else if strcmp_eq0 optarg "owner" then
          option_loop w rest (mk_locals (retval l) (root l) OWNER (path l))
        else if strcmp_eq0 optarg "group" then
          option_loop w rest (mk_locals (retval l) (root l) GROUP (path l))
        else
          printf ("unknown query type" ++ newline) ;;
          ret (Return (- EINVAL))
      else if Ascii.eqb option "r" then
        option_loop w rest (mk_locals (retval l) true (query l) (path l))
      else if Ascii.eqb option "d" then
        r <- udevdb_open_ro w ;;
        if negb (r =? 0) then
          printf ("unable to open udev database" ++ newline) ;;
          ret (Return (- EACCES))
        else
          r <- udevdb_dump w print_record ;;
          udevdb_exit ;;
          ret (Return r)
      else if Ascii.eqb option "V" then
        printf ("udev, version " ++ UDEV_VERSION w ++ newline) ;;
        ret (Return 0)
      else if Ascii.eqb option "h" then
        ret (Goto_help (mk_locals 0 (root l) (query l) (path l)))
      else
        ret (Goto_help l)
  end.

(** The label [help]. *)
Definition help (l : locals) : M Z :=
  printf usage_text ;;
  ret (retval l).

(** The content of [result] when the record was found. *)
Definition query_result (w : world) (l : locals) (dev : udevice) : string :=
  match query l with
  | NAME =>
      strncat (if root l then strfieldcpy w (udev_root w) else EmptyString)
              (name dev) (NAME_SIZE w)
  | SYMLINK => strfieldcpy w (symlink dev)
  | GROUP => strfieldcpy w (group dev)
  | OWNER => strfieldcpy w (owner dev)
  | NONE => EmptyString
  end.

Definition uninitialised_udevice : udevice := mk_udevice EmptyString EmptyString EmptyString EmptyString.

(** [query == NONE] *)
Definition is_NONE (q : query_type) : bool :=
  match q with
  | NONE => true
  | _ => false
  end.

(** "process options": what follows the loop when it ends by [break]. *)
Definition process_options (w : world) (l : locals) : M Z :=
  if negb (is_NONE (query l)) then
    match path l with
    | EmptyString =>
        printf ("query needs device path specified" ++ newline) ;;
        ret (- EINVAL)
    | String _ _ =>
        r <- udevdb_open_ro w ;;
        if negb (r =? 0) then
          printf ("unable to open udev database" ++ newline) ;;
          ret (- EACCES)
        else
          found <- udevdb_get_dev w (path l) uninitialised_udevice ;;
          (if fst found =? 0 then
             printf (query_result w l (snd found) ++ newline)
           else
             printf ("device not found in udev database" ++ newline)) ;;
          udevdb_exit ;;
          ret (fst found)
    end
  else if root l then
    printf (udev_root w ++ newline) ;;
    ret 0
  else help l.

Definition udev_user (w : world) (argv : list string) : M Z :=
  e <- option_loop w (getopt w short_options argv) initial_locals ;;
  match e with
  | Return status => ret status
  | Goto_help l => help l
  | Loop_end l => process_options w l
  end.

Definition subsystem_blacklist : list string :=
  ["net"; "scsi_host"; "scsi_device"; "usb_host"; "pci_bus"; EmptyString].

(** The loop over [subsystem_blacklist] from index [i], [entries] being the
    array from that index on: [Some j] when [goto exit] is taken at index
    [j], [None] when the loop ends at the empty entry. *)
Fixpoint blacklist_loop (entries : list string) (i : nat) (subsystem : string)
  : option nat :=
  match entries with
  | [] => None
  | entry :: rest =>
      match entry with
      | EmptyString => None
      | String _ _ =>
          if strcmp_eq0 subsystem entry then Some i
          else blacklist_loop rest (S i) subsystem
      end
  end.

(** The label [exit]. *)
Definition hotplug_exit (r : Z) : Z :=
  int_neg (if r >? 0 then 0 else r).

(** [udev_hotplug] up to the label [exit]: the value [retval] has when
    the label is reached. *)
Definition hotplug_body (w : world) (argv : list string) : M Z :=
  let subsystem := nth 1 argv EmptyString in
  match get_devpath w with
  | None =>
      dbg "no devpath?" ;;
      ret (- EINVAL)
  | Some devpath =>
      dbg ("looking at '" ++ devpath ++ "'") ;;
      if negb (strstr devpath "class") && negb (strstr devpath "block") then
        dbg "not a block or class device" ;;
        ret (- EINVAL)
      else
        match blacklist_loop subsystem_blacklist 0 subsystem with
        | Some _ =>
            dbg ("don't care about '" ++ subsystem ++ "' devices") ;;
            ret (- EINVAL)
        | None =>
            match get_action w with
            | None =>
                dbg "no action?" ;;
                ret (- EINVAL)
            | Some action =>
                sysbus_connect ;;
                r <- udevdb_init w UDEVDB_DEFAULT ;;
                r <- (if negb (r =? 0) then
                        dbg "unable to initialize database" ;;
                        ret r
                      else
                        signal SIGINT ;;
                        signal SIGTERM ;;
                        signal SIGKILL ;;
                        namedev_init ;;
                        r <- (if strcmp_eq0 action "add" then
                                udev_add_device w devpath subsystem
                              else if strcmp_eq0 action "remove" then
                                udev_remove_device w devpath subsystem
                              else
                                dbg ("unknown action '" ++ action ++ "'") ;;
                                ret (- EINVAL)) ;;
                        udevdb_exit ;;
                        ret r) ;;
                sysbus_disconnect ;;
                ret r
            end
        end
  end.

Definition udev_hotplug (w : world) (argv : list string) : M Z :=
  r <- hotplug_body w argv ;;
  ret (hotplug_exit r).

Inductive mode : Type := Hotplug | Query.

(** [argc == 2 && argv[1][0] != '-'] *)
Definition selected_mode (argv : list string) : mode :=
  if Nat.eqb (List.length argv) 2 && negb (first_char_is "-" (nth 1 argv EmptyString))
  then Hotplug else Query.

Definition main (w : world) (argv : list string) : M Z :=
  dbg ("version " ++ UDEV_VERSION w) ;;
  udev_init_config ;;
  match selected_mode argv with
  | Hotplug =>
      dbg "called by hotplug" ;;
      udev_hotplug w argv
  | Query =>
      dbg "called by user" ;;
      udev_user w argv
  end.

(** ** Vocabulary of the statements *)

(** [haystack] contains the substring [needle]. *)
Definition contains (haystack needle : string) : Prop :=
  exists before after, haystack = before ++ needle ++ after.

(** The argument vector has exactly two elements and the second does not
    begin with the flag marker. *)
Definition hotplug_invocation (argv : list string) : Prop :=
  exists prog arg,
    argv = [prog; arg] /\ forall rest, arg <> String "-"%char rest.

(** [getopt_whole args]: the scan consumes [args] exactly, so that what
    follows [args] on the command line is scanned afresh: no [--] among
    them and no option left waiting for its argument. *)
Fixpoint getopt_whole (optstring : string) (args : list string) : bool :=
  match args with
  | [] => true
  | arg :: rest =>
      if String.eqb arg "--" then false
      else
        match option_cluster arg with
        | None => getopt_whole optstring rest
        | Some cluster =>
            match snd (scan_cluster optstring cluster) with
            | None => getopt_whole optstring rest
            | Some _ =>
                match rest with
                | [] => false
                | _ :: rest' => getopt_whole optstring rest'
                end
            end
        end
  end.

(** [getopt_through posixly_correct args]: the scan goes through [args]
    and on to what follows them: as [getopt_whole] and, under
    POSIXLY_CORRECT, no non-option element among them. *)
Fixpoint getopt_through (posixly_correct : bool) (optstring : string)
  (args : list string) : bool :=
  match args with
  | [] => true
  | arg :: rest =>
      if String.eqb arg "--" then false
      else
        match option_cluster arg with
        | None =>
            negb posixly_correct
            && getopt_through posixly_correct optstring rest
        | Some cluster =>
            match snd (scan_cluster optstring cluster) with
            | None => getopt_through posixly_correct optstring rest
            | Some _ =>
                match rest with
                | [] => false
                | _ :: rest' => getopt_through posixly_correct optstring rest'
                end
            end
        end
  end.

(** The blacklist as a set of names, in the order of the array. *)
Definition blacklisted_subsystems : list string :=
  ["net"; "scsi_host"; "scsi_device"; "usb_host"; "pci_bus"].

(** The values of [-q] that name a query. *)
Definition query_names : list string := ["name"; "symlink"; "owner"; "group"].

Definition known_query (value : string) : bool :=
  existsb (String.eqb value) query_names.

(** The results of [getopt] after which the option loop goes round again:
    [-p PATH], [-r], and [-q] with a value that names a query. *)
Definition continues (r : getopt_result) : bool :=
  let (option, optarg) := r in
  Ascii.eqb option "p" || Ascii.eqb option "r"
  || (Ascii.eqb option "q" && known_query optarg).

Definition only_tracing (trace : list event) : bool :=
  forallb (fun e => negb (action_event e)) trace.

Definition no_database_event (trace : list event) : bool :=
  forallb (fun e => negb (database_event e)) trace.

(** The events of a trace that add or remove a device. *)
Definition add_or_remove_event (e : event) : bool :=
  match e with
  | Call_udev_add_device _ _ | Call_udev_remove_device _ _ => true
  | _ => false
  end.

(** [str] fits a [char] array of [NAME_SIZE] bytes with its final NUL. *)
Definition fits (w : world) (str : string) : Prop :=
  (String.length str < NAME_SIZE w)%nat.

(** What a query is to print for a record, in the words of the
    specification: the root and the name, the name alone, or a field. *)
Definition resolved (w : world) (kind : query_type) (rootPrefix : bool)
  (dev : udevice) : string :=
  match kind with
  | NAME => if rootPrefix then udev_root w ++ name dev else name dev
  | SYMLINK => symlink dev
  | OWNER => owner dev
  | GROUP => group dev
  | NONE => EmptyString
  end.


Definition bus_connect_event (e : event) : bool :=
  match e with
  | Call_sysbus_connect => true
  | _ => false
  end.

Definition bus_disconnect_event (e : event) : bool :=
  match e with
  | Call_sysbus_disconnect => true
  | _ => false
  end.




(** The six lines of one record of the dump. *)
Definition record_lines (r : string * udevice) : list string :=
  ["P: " ++ fst r ++ newline;
   "N: " ++ name (snd r) ++ newline;
   "S: " ++ symlink (snd r) ++ newline;
   "O: " ++ owner (snd r) ++ newline;
   "G: " ++ group (snd r) ++ newline;
   newline].

(** The value given to the last occurrence of option [c]. *)
Definition last_value (c : ascii) (results : list getopt_result)
  : option string :=
  match find (fun r => Ascii.eqb (fst r) c) (rev results) with
  | Some r => Some (snd r)
  | None => None
  end.

(** The query kind a value of [-q] names. *)
Definition query_kind (value : string) : query_type :=
  if String.eqb value "name" then NAME
  else if String.eqb value "symlink" then SYMLINK
  else if String.eqb value "owner" then OWNER
  else if String.eqb value "group" then GROUP
  else NONE.

(** The option characters the [switch] has a case for. *)
Definition handled_option (c : ascii) : bool :=
  existsb (Ascii.eqb c) ["p"; "q"; "r"; "d"; "V"; "h"]%char.

(** Worlds and states used as concrete inputs. *)
Definition sda : udevice := mk_udevice "sda" "disk0" "root" "disk".

Definition sample_world (env : list (string * string)) : world :=
  mk_world env "/dev/" "009" 128 (fun _ _ => sda) 0 0 0 19%positive 0 0.

Definition add_world : world :=
  sample_world [("DEVPATH", "/block/sda"); ("ACTION", "add")].

Definition remove_world : world :=
  sample_world [("DEVPATH", "/block/sda"); ("ACTION", "remove")].

Definition change_world : world :=
  sample_world [("DEVPATH", "/block/sda"); ("ACTION", "change")].

Definition empty_state : state := mk_state [] false.

(** A world with POSIXLY_CORRECT in its environment. *)
Definition posix_world : world :=
  sample_world [("POSIXLY_CORRECT", "1")].

Fixpoint repeat_string (n : nat) (str : string) : string :=
  match n with
  | O => EmptyString
  | S n' => str ++ repeat_string n' str
  end.

(** A world whose device root, of 129 characters, is longer than a
    [char] array of [NAME_SIZE] = 128 bytes can hold. *)
Definition deep_root_world : world :=
  mk_world [] ("/" ++ repeat_string 16 "devices/") "009" 128
           (fun _ _ => sda) 0 0 0 19%positive 0 0.

(** A record without a name, and a database that holds it. *)
Definition nameless : udevice := mk_udevice EmptyString EmptyString "root" "disk".

Definition nameless_state : state :=
  mk_state [("/block/sda", nameless)] false.

Definition sdb : udevice := mk_udevice "sdb" "disk1" "root" "disk".

Definition two_disks_state : state :=
  mk_state [("/block/sda", sda); ("/block/sdb", sdb)] false.

(** A world whose database cannot be opened or initialised. *)
Definition locked_world : world :=
  mk_world [("DEVPATH", "/block/sda"); ("ACTION", "add")] "/dev/" "009" 128
           (fun _ _ => sda) (-13) (-13) 0 19%positive 0 0.

Definition sda_state : state := mk_state [("/block/sda", sda)] false.

(** ** Tactics *)

(** Unfold the monad and the collaborators and compute the triple. *)
Ltac run :=
  unfold bind, ret, dbg, printf, signal, emit, sysbus_connect,
    sysbus_disconnect, namedev_init, udevdb_init, udevdb_open_ro,
    udevdb_exit, udevdb_get_dev, udev_add_device, udev_remove_device,
    result_of, state_of, trace_of;
  cbn [fst snd app].

(** One round of the option loop followed by the induction hypothesis. *)
Ltac split_loop IH :=
  rewrite IH;
  match goal with
  | |- context [option_loop ?w ?pre ?l ?s] =>
      destruct (option_loop w pre l s) as [[[st|lh|l'] s1] t1]
  end;
  [reflexivity | reflexivity |];
  match goal with
  | |- context [option_loop ?w ?rest ?x ?y] =>
      destruct (option_loop w rest x y) as [[e2 s2] t2]
  end; reflexivity.

(** Every path through [udev_hotplug], one goal each. *)
Ltac hotplug_paths w argv :=
  unfold udev_hotplug, hotplug_body;
  destruct (get_devpath w) as [devpath|] eqn:Hdevpath;
  [destruct (negb (strstr devpath "class") && negb (strstr devpath "block"))
     eqn:Hfilter;
   [|destruct (blacklist_loop subsystem_blacklist 0 (nth 1 argv EmptyString))
       as [i|] eqn:Hblacklist;
     [|destruct (get_action w) as [action|] eqn:Haction;
       [run;
        destruct (udevdb_init_result w =? 0) eqn:Hinit; cbn [negb fst snd app];
        [destruct (strcmp_eq0 action "add") eqn:Hadd;
         [|destruct (strcmp_eq0 action "remove") eqn:Hremove]|]|]]]|];
  run.

(** ** Strings *)

Lemma prefix_append (n rest : string) : String.prefix n (n ++ rest) = true.
Proof.
  induction n as [|c n IH]; simpl.
  - destruct rest; reflexivity.
  - destruct (Ascii.ascii_dec c c) as [_|Hne]; [exact IH | now elim Hne].
Qed.

Lemma prefix_split (n h : string) :
  String.prefix n h = true -> exists rest, h = n ++ rest.
Proof.
  revert h; induction n as [|c n IH]; intros h H.
  - exists h; reflexivity.
  - destruct h as [|c' h]; simpl in H; [discriminate|].
    destruct (Ascii.ascii_dec c c') as [->|_]; [|discriminate].
    destruct (IH h H) as [rest ->].
    exists rest; reflexivity.
Qed.

Lemma strstr_unfold (h n : string) :
  strstr h n =
  if String.prefix n h then true
  else match h with
       | EmptyString => false
       | String _ rest => strstr rest n
       end.
Proof. destruct h; reflexivity. Qed.

Lemma strstr_contains (h n : string) : strstr h n = true <-> contains h n.
Proof.
  split.
  - induction h as [|c h IH]; rewrite strstr_unfold;
      destruct (String.prefix n _) eqn:Hp; intros H.
    + apply prefix_split in Hp as [rest ->]. exists EmptyString, rest; reflexivity.
    + discriminate.
    + apply prefix_split in Hp as [rest ->]. exists EmptyString, rest; reflexivity.
    + destruct (IH H) as (a & b & ->). exists (String c a), b; reflexivity.
  - intros (a & b & ->).
    induction a as [|c a IH]; rewrite strstr_unfold.
    + simpl. now rewrite prefix_append.
    + destruct (String.prefix n _); [reflexivity | exact IH].
Qed.

Lemma take_chars_all (n : nat) (s : string) :
  (String.length s <= n)%nat -> take_chars n s = s.
Proof.
  revert n; induction s as [|c s IH]; intros [|n] H; simpl in *;
    try reflexivity; try lia.
  f_equal; apply IH; lia.
Qed.

(** ** Integers *)

Lemma int_neg_defined (r : Z) :
  INT_MIN < r <= INT_MAX -> int_neg r = - r.
Proof.
  unfold int_neg, int_wrap, INT_MIN, INT_MAX; intros H.
  rewrite Z.mod_small; lia.
Qed.

Lemma hotplug_exit_sign (r : Z) :
  INT_MIN < r ->
  0 <= hotplug_exit r /\ (hotplug_exit r = 0 <-> 0 <= r) /\
  (0 < hotplug_exit r <-> r < 0).
Proof.
  unfold hotplug_exit; intros H.
  destruct (Z.gtb_spec r 0) as [Hpos|Hle].
  - change (int_neg 0) with 0. lia.
  - rewrite int_neg_defined by (unfold INT_MAX, INT_MIN in *; lia). lia.
Qed.

(** ** The monad *)

Lemma result_of_bind_ret {A B : Type} (m : M A) (f : A -> B) (s : state) :
  (x <- m ;; ret (f x)) s =
  (f (result_of (m s)), state_of (m s), trace_of (m s)).
Proof.
  unfold bind, ret, result_of, state_of, trace_of.
  destruct (m s) as [[a s1] t1]; simpl.
  now rewrite app_nil_r.
Qed.

(** ** The mode selector *)

Lemma first_char_is_dash (arg : string) :
  first_char_is "-" arg = false <-> forall rest, arg <> String "-"%char rest.
Proof.
  destruct arg as [|c arg]; cbn [first_char_is].
  - split; [discriminate | reflexivity].
  - destruct (Ascii.eqb_spec c "-") as [->|Hne]; split; intros H.
    + discriminate.
    + now elim (H arg).
    + intros rest [= E _]; contradiction.
    + reflexivity.
Qed.

Lemma selected_mode_hotplug (argv : list string) :
  selected_mode argv = Hotplug <-> hotplug_invocation argv.
Proof.
  unfold selected_mode, hotplug_invocation. split.
  - destruct argv as [|prog [|arg [|x argv]]]; cbn [List.length Nat.eqb andb];
      try discriminate.
    cbn [nth]. destruct (first_char_is "-" arg) eqn:E; [discriminate|].
    intros _. exists prog, arg. split; [reflexivity|].
    now apply first_char_is_dash.
  - intros (prog & arg & -> & Harg).
    apply first_char_is_dash in Harg.
    cbn [List.length Nat.eqb andb nth]. now rewrite Harg.
Qed.

Lemma main_unfold (w : world) (argv : list string) (s : state) :
  main w argv s =
    let '(status, s', t) :=
      match selected_mode argv with
      | Hotplug => udev_hotplug w argv s
      | Query => udev_user w argv s
      end in
    (status, s',
     Dbg ("version " ++ UDEV_VERSION w) :: Call_udev_init_config
     :: Dbg (match selected_mode argv with
             | Hotplug => "called by hotplug"
             | Query => "called by user"
             end) :: t).
Proof.
  unfold main, bind, dbg, udev_init_config, emit; cbv beta iota.
  destruct (selected_mode argv).
  - destruct (udev_hotplug w argv s) as [[status s'] t]; reflexivity.
  - destruct (udev_user w argv s) as [[status s'] t]; reflexivity.
Qed.

Lemma main_result (w : world) (argv : list string) (s : state) :
  result_of (main w argv s) =
  match selected_mode argv with
  | Hotplug => result_of (udev_hotplug w argv s)
  | Query => result_of (udev_user w argv s)
  end.
Proof.
  rewrite main_unfold.
  destruct (selected_mode argv);
    [destruct (udev_hotplug w argv s) as [[status s'] t]
    |destruct (udev_user w argv s) as [[status s'] t]]; reflexivity.
Qed.

(** C2: for every argument vector the program selects Hotplug mode if and
    only if there are exactly two arguments and the second does not begin
    with '-'; in every other case it selects Query mode.  [main] then runs
    the dispatcher, respectively the query command line, after its
    prologue. *)
Theorem mode_selection (w : world) (argv : list string) (s : state) :
  (selected_mode argv = Hotplug <-> hotplug_invocation argv) /\
  (selected_mode argv = Query <-> ~ hotplug_invocation argv) /\
  main w argv s =
    let '(status, s', t) :=
      match selected_mode argv with
      | Hotplug => udev_hotplug w argv s
      | Query => udev_user w argv s
      end in
    (status, s',
     Dbg ("version " ++ UDEV_VERSION w) :: Call_udev_init_config
     :: Dbg (match selected_mode argv with
             | Hotplug => "called by hotplug"
             | Query => "called by user"
             end) :: t).
Proof.
  split; [apply selected_mode_hotplug|]. split.
  - rewrite <- selected_mode_hotplug.
    destruct (selected_mode argv); split; congruence.
  - apply main_unfold.
Qed.

Example non_option_is_skipped :
  udev_user add_world ["udev"; "x"; "-r"] sda_state =
  (0, sda_state, [Dbg "option 'r'"; Printf ("/dev/" ++ newline)]).
Proof. reflexivity. Qed.

Example posixly_correct_stops_at_a_non_option :
  udev_user posix_world ["udev"; "x"; "-r"] sda_state =
  (-22, sda_state, [Printf usage_text]) /\
  udev_user posix_world ["udev"; "x"; "-V"] sda_state =
  (-22, sda_state, [Printf usage_text]).
Proof. split; reflexivity. Qed.

Example mode_of_prog_block : selected_mode ["prog"; "block"] = Hotplug.
Proof. reflexivity. Qed.

Example mode_of_prog_query :
  selected_mode ["prog"; "-p"; "/sys/foo"; "-q"; "name"] = Query.
Proof. reflexivity. Qed.

(** ** The hotplug dispatcher *)

Lemma blacklist_loop_index (subsystem : string) (i : nat) :
  blacklist_loop subsystem_blacklist 0 subsystem = Some i <->
  nth_error blacklisted_subsystems i = Some subsystem.
Proof.
  unfold subsystem_blacklist, blacklisted_subsystems.
  cbn [blacklist_loop]; unfold strcmp_eq0.
  split.
  - repeat (destruct (String.eqb subsystem _) eqn:E;
            [apply String.eqb_eq in E as ->; intros [= <-]; reflexivity
            |clear E]).
    intros H; discriminate H.
  - intros H.
    do 5 (destruct i as [|i]; [injection H as <-; reflexivity|]).
    destruct i; discriminate.
Qed.

Lemma blacklist_loop_some (subsystem : string) :
  In subsystem blacklisted_subsystems <->
  exists i, blacklist_loop subsystem_blacklist 0 subsystem = Some i.
Proof.
  split.
  - intros H. apply In_nth_error in H as [i H].
    exists i. now apply blacklist_loop_index.
  - intros [i H]. apply blacklist_loop_index in H.
    eapply nth_error_In; eassumption.
Qed.

Lemma blacklist_loop_none (subsystem : string) :
  ~ In subsystem blacklisted_subsystems <->
  blacklist_loop subsystem_blacklist 0 subsystem = None.
Proof.
  rewrite blacklist_loop_some.
  destruct (blacklist_loop _ _ _) as [i|]; split; intros H; try congruence.
  - elim H; eauto.
  - intros [j Hj]; discriminate.
Qed.

Lemma devpath_filter (devpath : string) :
  negb (strstr devpath "class") && negb (strstr devpath "block") = false <->
  contains devpath "class" \/ contains devpath "block".
Proof.
  rewrite <- !strstr_contains.
  destruct (strstr devpath "class"), (strstr devpath "block"); simpl;
    intuition congruence.
Qed.

Lemma udev_hotplug_unfold (w : world) (argv : list string) (s : state) :
  udev_hotplug w argv s =
  (hotplug_exit (result_of (hotplug_body w argv s)),
   state_of (hotplug_body w argv s),
   trace_of (hotplug_body w argv s)).
Proof. unfold udev_hotplug. apply result_of_bind_ret. Qed.

Lemma hotplug_body_early_exit (w : world) (argv : list string) (s : state) :
  get_devpath w = None \/
  (exists devpath, get_devpath w = Some devpath /\
                   ~ contains devpath "class" /\ ~ contains devpath "block") \/
  In (nth 1 argv EmptyString) blacklisted_subsystems \/
  get_action w = None ->
  exists t, hotplug_body w argv s = (- EINVAL, s, t) /\ only_tracing t = true.
Proof.
  intros H. unfold hotplug_body.
  destruct (get_devpath w) as [devpath|] eqn:Hd;
    [|eexists; split; run; reflexivity].
  destruct (negb (strstr devpath "class") && negb (strstr devpath "block"))
    eqn:Hf; [eexists; split; run; reflexivity|].
  destruct (blacklist_loop subsystem_blacklist 0 (nth 1 argv EmptyString)) as [i|]
    eqn:Hb; [eexists; split; run; reflexivity|].
  destruct (get_action w) as [action|] eqn:Ha;
    [exfalso|eexists; split; run; reflexivity].
  apply devpath_filter in Hf. apply blacklist_loop_none in Hb.
  destruct H as [H|[(d & [= <-] & Hc & Hk)|[H|H]]];
    try discriminate; tauto.
Qed.

(** C1 (as amended): in hotplug mode every expected early exit (DEVPATH
    unset, a devpath containing neither "class" nor "block", a blacklisted
    subsystem, ACTION unset) returns the status EINVAL, which is not zero,
    and performs no action: the state is unchanged and the run only
    traces. *)
Theorem hotplug_early_exit_returns_EINVAL
  (w : world) (argv : list string) (s : state)
  (Hexit : get_devpath w = None \/
           (exists devpath, get_devpath w = Some devpath /\
              ~ contains devpath "class" /\ ~ contains devpath "block") \/
           In (nth 1 argv EmptyString) blacklisted_subsystems \/
           get_action w = None) :
  result_of (udev_hotplug w argv s) = EINVAL /\
  EINVAL <> 0 /\
  state_of (udev_hotplug w argv s) = s /\
  only_tracing (trace_of (udev_hotplug w argv s)) = true.
Proof.
  destruct (hotplug_body_early_exit w argv s Hexit) as (t & Hbody & Ht).
  rewrite udev_hotplug_unfold, Hbody.
  unfold result_of, state_of, trace_of; cbn [fst snd].
  split; [reflexivity|].
  split; [discriminate|].
  split; [reflexivity | exact Ht].
Qed.

Lemma hotplug_early_exit_returns_EINVAL_witness :
  In (nth 1 ["udev"; "net"] EmptyString) blacklisted_subsystems /\
  result_of (udev_hotplug add_world ["udev"; "net"] empty_state) = EINVAL /\
  EINVAL <> 0 /\
  state_of (udev_hotplug add_world ["udev"; "net"] empty_state) = empty_state /\
  only_tracing (trace_of (udev_hotplug add_world ["udev"; "net"] empty_state))
  = true.
Proof.
  split; [simpl; tauto|].
  apply (hotplug_early_exit_returns_EINVAL add_world ["udev"; "net"]
           empty_state).
  right; right; left; simpl; tauto.
Defined.

(** C1 (as stated) fails: with DEVPATH unset, with a devpath that is
    neither a class nor a block device, with the blacklisted subsystem
    [net], and with ACTION unset, the status is 22 and not zero. *)
Lemma hotplug_early_exit_status_is_not_zero :
  get_devpath (sample_world []) = None /\
  result_of (udev_hotplug (sample_world []) ["udev"; "block"] empty_state)
  = 22 /\
  result_of (udev_hotplug (sample_world [("DEVPATH", "/devices/pci0")])
                          ["udev"; "pci"] empty_state) = 22 /\
  result_of (udev_hotplug add_world ["udev"; "net"] empty_state) = 22 /\
  get_action (sample_world [("DEVPATH", "/block/sda")]) = None /\
  result_of (udev_hotplug (sample_world [("DEVPATH", "/block/sda")])
                          ["udev"; "block"] empty_state) = 22 /\
  22 <> 0.
Proof. do 6 (split; [reflexivity|]). discriminate. Qed.

(** C3: in hotplug mode the status is the negation of the accumulated
    result code after every positive code has been mapped to 0; so, for
    every run whose accumulated code has a negation ([-INT_MIN] is not
    defined in C), the status is 0 on success (a code that is not
    negative) and positive on failure (a negative code).  In hotplug mode
    that status is what [main] returns. *)
Theorem hotplug_status_normalised
  (w : world) (argv : list string) (s : state)
  (Hint : INT_MIN < result_of (hotplug_body w argv s)) :
  result_of (udev_hotplug w argv s) =
    int_neg (if result_of (hotplug_body w argv s) >? 0 then 0
             else result_of (hotplug_body w argv s)) /\
  0 <= result_of (udev_hotplug w argv s) /\
  (result_of (udev_hotplug w argv s) = 0 <->
   0 <= result_of (hotplug_body w argv s)) /\
  (0 < result_of (udev_hotplug w argv s) <->
   result_of (hotplug_body w argv s) < 0) /\
  (selected_mode argv = Hotplug ->
   result_of (main w argv s) = result_of (udev_hotplug w argv s)).
Proof.
  assert (Hstatus : result_of (udev_hotplug w argv s) =
                    hotplug_exit (result_of (hotplug_body w argv s)))
    by now rewrite udev_hotplug_unfold.
  destruct (hotplug_exit_sign _ Hint) as (Hnonneg & Hzero & Hpos).
  rewrite Hstatus.
  split; [reflexivity|].
  split; [exact Hnonneg|].
  split; [exact Hzero|].
  split; [exact Hpos|].
  intros Hmode. now rewrite main_result, Hmode.
Qed.

Lemma hotplug_status_normalised_witness :
  INT_MIN < result_of (hotplug_body change_world ["udev"; "block"] empty_state)
  /\ result_of (hotplug_body change_world ["udev"; "block"] empty_state) = -22
  /\ result_of (udev_hotplug change_world ["udev"; "block"] empty_state) = 22
  /\ (0 < result_of (udev_hotplug change_world ["udev"; "block"] empty_state)
      <-> result_of (hotplug_body change_world ["udev"; "block"] empty_state)
          < 0).
Proof.
  split; [reflexivity|].
  split; [reflexivity|].
  split; [reflexivity|].
  apply (hotplug_status_normalised change_world ["udev"; "block"] empty_state).
  reflexivity.
Defined.

(** What the dispatcher does once the event has passed the devpath test,
    according to the blacklist, ACTION and the database. *)
Lemma hotplug_body_blacklisted
  (w : world) (prog subsystem devpath : string) (s : state) :
  get_devpath w = Some devpath ->
  contains devpath "class" \/ contains devpath "block" ->
  In subsystem blacklisted_subsystems ->
  hotplug_body w [prog; subsystem] s =
  (- EINVAL, s,
   [Dbg ("looking at '" ++ devpath ++ "'");
    Dbg ("don't care about '" ++ subsystem ++ "' devices")]).
Proof.
  intros Hd Hc Hb. unfold hotplug_body. rewrite Hd.
  apply devpath_filter in Hc; rewrite Hc.
  apply blacklist_loop_some in Hb as [i Hb].
  cbn [nth]. rewrite Hb. reflexivity.
Qed.

Lemma hotplug_body_accepted
  (w : world) (prog subsystem devpath : string) (s : state) :
  get_devpath w = Some devpath ->
  contains devpath "class" \/ contains devpath "block" ->
  ~ In subsystem blacklisted_subsystems ->
  hotplug_body w [prog; subsystem] s =
  match get_action w with
  | None =>
      (- EINVAL, s,
       [Dbg ("looking at '" ++ devpath ++ "'"); Dbg "no action?"])
  | Some action =>
      if negb (udevdb_init_result w =? 0) then
        (udevdb_init_result w, s,
         [Dbg ("looking at '" ++ devpath ++ "'"); Call_sysbus_connect;
          Call_udevdb_init UDEVDB_DEFAULT;
          Dbg "unable to initialize database"; Call_sysbus_disconnect])
      else if strcmp_eq0 action "add" then
        (udev_add_device_result w,
         mk_state (db_insert_or_update devpath
                     (namedev_rules w devpath subsystem) (db s)) false,
         [Dbg ("looking at '" ++ devpath ++ "'"); Call_sysbus_connect;
          Call_udevdb_init UDEVDB_DEFAULT;
          Call_signal SIGINT; Call_signal SIGTERM; Call_signal SIGKILL;
          Call_namedev_init; Call_udev_add_device devpath subsystem;
          Call_udevdb_exit; Call_sysbus_disconnect])
      else if strcmp_eq0 action "remove" then
        (udev_remove_device_result w,
         mk_state (db_remove devpath (db s)) false,
         [Dbg ("looking at '" ++ devpath ++ "'"); Call_sysbus_connect;
          Call_udevdb_init UDEVDB_DEFAULT;
          Call_signal SIGINT; Call_signal SIGTERM; Call_signal SIGKILL;
          Call_namedev_init; Call_udev_remove_device devpath subsystem;
          Call_udevdb_exit; Call_sysbus_disconnect])
      else
        (- EINVAL, mk_state (db s) false,
         [Dbg ("looking at '" ++ devpath ++ "'"); Call_sysbus_connect;
          Call_udevdb_init UDEVDB_DEFAULT;
          Call_signal SIGINT; Call_signal SIGTERM; Call_signal SIGKILL;
          Call_namedev_init; Dbg ("unknown action '" ++ action ++ "'");
          Call_udevdb_exit; Call_sysbus_disconnect])
  end.
Proof.
  intros Hd Hc Hb. unfold hotplug_body. rewrite Hd.
  apply devpath_filter in Hc; rewrite Hc.
  apply blacklist_loop_none in Hb.
  cbn [nth]. rewrite Hb.
  destruct (get_action w) as [action|]; [|reflexivity].
  run.
  destruct (udevdb_init_result w =? 0); cbn [negb fst snd app];
    [|reflexivity].
  destruct (strcmp_eq0 action "add"); [reflexivity|].
  destruct (strcmp_eq0 action "remove"); reflexivity.
Qed.

(** C4: for every hotplug event whose devpath contains "class" or "block",
    the dispatcher rejects the event at the blacklist exactly when the
    subsystem is string-equal to one of net, scsi_host, scsi_device,
    usb_host, pci_bus, the entries being tried in that order (the loop
    stops at index [i] exactly when entry [i] of the list is the
    subsystem); a rejected event leaves the database and the handle as
    they were and calls neither add-device nor remove-device, nor any
    other database operation.  An event that is not rejected and has its
    ACTION goes on to the bus connection. *)
Theorem blacklist_rejects_exactly_the_listed_subsystems
  (w : world) (prog subsystem devpath : string) (s : state)
  (Hdevpath : get_devpath w = Some devpath)
  (Hkind : contains devpath "class" \/ contains devpath "block") :
  (In (Dbg ("don't care about '" ++ subsystem ++ "' devices"))
      (trace_of (udev_hotplug w [prog; subsystem] s))
   <-> In subsystem blacklisted_subsystems) /\
  (forall i, blacklist_loop subsystem_blacklist 0 subsystem = Some i <->
             nth_error blacklisted_subsystems i = Some subsystem) /\
  (In subsystem blacklisted_subsystems ->
   state_of (udev_hotplug w [prog; subsystem] s) = s /\
   filter add_or_remove_event (trace_of (udev_hotplug w [prog; subsystem] s))
   = [] /\
   no_database_event (trace_of (udev_hotplug w [prog; subsystem] s)) = true) /\
  (~ In subsystem blacklisted_subsystems -> get_action w <> None ->
   In Call_sysbus_connect (trace_of (udev_hotplug w [prog; subsystem] s))).
Proof.
  split; [|split; [|split]].
  - rewrite udev_hotplug_unfold; unfold trace_of at 1; cbn [snd].
    split.
    + intros Hin.
      destruct (in_dec string_dec subsystem blacklisted_subsystems)
        as [Hb|Hb]; [exact Hb | exfalso].
      rewrite (hotplug_body_accepted w prog subsystem devpath s
                 Hdevpath Hkind Hb) in Hin.
      destruct (get_action w) as [action|];
        [destruct (negb (udevdb_init_result w =? 0));
         [|destruct (strcmp_eq0 action "add");
           [|destruct (strcmp_eq0 action "remove")]]|];
        cbn in Hin; intuition discriminate.
    + intros Hb.
      rewrite (hotplug_body_blacklisted w prog subsystem devpath s
                 Hdevpath Hkind Hb).
      cbn; auto.
  - intros i; apply blacklist_loop_index.
  - intros Hb.
    rewrite udev_hotplug_unfold.
    rewrite (hotplug_body_blacklisted w prog subsystem devpath s
               Hdevpath Hkind Hb).
    repeat split.
  - intros Hb Haction.
    rewrite udev_hotplug_unfold; unfold trace_of at 1; cbn [snd].
    rewrite (hotplug_body_accepted w prog subsystem devpath s
               Hdevpath Hkind Hb).
    destruct (get_action w) as [action|]; [|congruence].
    destruct (negb (udevdb_init_result w =? 0));
      [|destruct (strcmp_eq0 action "add");
        [|destruct (strcmp_eq0 action "remove")]];
      cbn; tauto.
Qed.

Lemma blacklist_rejects_exactly_the_listed_subsystems_witness :
  get_devpath add_world = Some "/block/sda" /\
  (contains "/block/sda" "class" \/ contains "/block/sda" "block") /\
  (In (Dbg "don't care about 'scsi_host' devices")
      (trace_of (udev_hotplug add_world ["udev"; "scsi_host"] empty_state))
   <-> In "scsi_host" blacklisted_subsystems) /\
  blacklist_loop subsystem_blacklist 0 "scsi_host" = Some 1%nat /\
  state_of (udev_hotplug add_world ["udev"; "scsi_host"] empty_state)
  = empty_state.
Proof.
  assert (Hk : contains "/block/sda" "class" \/ contains "/block/sda" "block")
    by (right; exists "/", "/sda"; reflexivity).
  destruct (blacklist_rejects_exactly_the_listed_subsystems
              add_world "udev" "scsi_host" "/block/sda" empty_state
              eq_refl Hk) as (Htrace & Hindex & Hframe & _).
  split; [reflexivity|].
  split; [exact Hk|].
  split; [exact Htrace|].
  split; [apply Hindex; reflexivity|].
  apply Hframe; simpl; tauto.
Defined.

(** ** The database *)

Lemma db_lookup_insert_or_update (p : string) (dev : udevice) (d : database) :
  db_lookup p (db_insert_or_update p dev d) = Some dev.
Proof.
  induction d as [|[q old] d IH]; simpl.
  - now rewrite String.eqb_refl.
  - destruct (String.eqb q p) eqn:E; simpl; rewrite E; auto.
Qed.

Lemma db_lookup_remove (p : string) (d : database) :
  db_lookup p (db_remove p d) = None.
Proof.
  induction d as [|[q dev] d IH]; simpl; [reflexivity|].
  destruct (String.eqb q p) eqn:E; simpl; [|rewrite E]; exact IH.
Qed.

Lemma db_lookup_insert_or_update_other
  (p q : string) (dev : udevice) (d : database) :
  q <> p -> db_lookup q (db_insert_or_update p dev d) = db_lookup q d.
Proof.
  intros Hne. induction d as [|[k old] d IH]; simpl.
  - destruct (String.eqb_spec p q); [congruence | reflexivity].
  - destruct (String.eqb_spec k p) as [->|Hk]; simpl.
    + destruct (String.eqb_spec p q); [congruence | reflexivity].
    + destruct (String.eqb k q); auto.
Qed.

Lemma db_lookup_remove_other (p q : string) (d : database) :
  q <> p -> db_lookup q (db_remove p d) = db_lookup q d.
Proof.
  intros Hne. induction d as [|[k dev] d IH]; simpl; [reflexivity|].
  destruct (String.eqb_spec k p) as [->|Hk]; simpl.
  - destruct (String.eqb_spec p q); [congruence | exact IH].
  - destruct (String.eqb k q); auto.
Qed.

(** C9: for every devpath and subsystem that pass the filters, dispatching
    "add" and then "remove" for them (the database being initialised in
    both runs, so that the action is dispatched) stores a record for the
    path and then leaves the database without a record for it; the
    records of the other paths are as before. *)
Theorem add_then_remove_leaves_no_record
  (w1 w2 : world) (prog subsystem devpath : string) (s : state)
  (Hdevpath1 : get_devpath w1 = Some devpath)
  (Hdevpath2 : get_devpath w2 = Some devpath)
  (Hkind : contains devpath "class" \/ contains devpath "block")
  (Hsubsystem : ~ In subsystem blacklisted_subsystems)
  (Hadd : get_action w1 = Some "add")
  (Hremove : get_action w2 = Some "remove")
  (Hinit1 : udevdb_init_result w1 = 0)
  (Hinit2 : udevdb_init_result w2 = 0) :
  let s1 := state_of (udev_hotplug w1 [prog; subsystem] s) in
  let s2 := state_of (udev_hotplug w2 [prog; subsystem] s1) in
  db_lookup devpath (db s1) = Some (namedev_rules w1 devpath subsystem) /\
  db_lookup devpath (db s2) = None /\
  (forall other, other <> devpath ->
                 db_lookup other (db s2) = db_lookup other (db s)) /\
  In (Call_udev_add_device devpath subsystem)
     (trace_of (udev_hotplug w1 [prog; subsystem] s)) /\
  In (Call_udev_remove_device devpath subsystem)
     (trace_of (udev_hotplug w2 [prog; subsystem] s1)).
Proof.
  intros s1 s2; subst s1 s2.
  rewrite !udev_hotplug_unfold.
  unfold state_of at 1 2 3 4 5, trace_of at 1 2; cbn [fst snd].
  rewrite !(hotplug_body_accepted w2 prog subsystem devpath _
              Hdevpath2 Hkind Hsubsystem).
  rewrite !(hotplug_body_accepted w1 prog subsystem devpath _
              Hdevpath1 Hkind Hsubsystem).
  rewrite Hadd, Hremove, Hinit1, Hinit2.
  cbn [Z.eqb negb strcmp_eq0 String.eqb Ascii.eqb Bool.eqb state_of trace_of
       fst snd db].
  split; [apply db_lookup_insert_or_update|].
  split; [apply db_lookup_remove|].
  split.
  - intros other Hne.
    rewrite db_lookup_remove_other, db_lookup_insert_or_update_other; auto.
  - split; cbn; tauto.
Qed.

Lemma add_then_remove_leaves_no_record_witness :
  db_lookup "/block/sda"
    (db (state_of (udev_hotplug add_world ["udev"; "block"] empty_state)))
  = Some sda /\
  db_lookup "/block/sda"
    (db (state_of
           (udev_hotplug remove_world ["udev"; "block"]
              (state_of (udev_hotplug add_world ["udev"; "block"]
                                      empty_state)))))
  = None.
Proof.
  assert (Hk : contains "/block/sda" "class" \/ contains "/block/sda" "block")
    by (right; exists "/", "/sda"; reflexivity).
  assert (Hs : ~ In "block" blacklisted_subsystems)
    by (simpl; intuition discriminate).
  destruct (add_then_remove_leaves_no_record
              add_world remove_world "udev" "block" "/block/sda" empty_state
              eq_refl eq_refl Hk Hs eq_refl eq_refl eq_refl eq_refl)
    as (Hstored & Hgone & _).
  split; [exact Hstored | exact Hgone].
Defined.

(** ** The option loop of the query command line *)

Lemma option_loop_app (w : world) (pre rest : list getopt_result) :
  forall (l : locals) (s : state),
  option_loop w (pre ++ rest)%list l s =
  let '(e, s1, t1) := option_loop w pre l s in
  match e with
  | Loop_end l' =>
      let '(e2, s2, t2) := option_loop w rest l' s1 in (e2, s2, (t1 ++ t2)%list)
  | _ => (e, s1, t1)
  end.
Proof.
  induction pre as [|[option optarg] pre IH]; intros l s.
  - cbn [app option_loop]. unfold ret.
    destruct (option_loop w rest l s) as [[e2 s2] t2]. reflexivity.
  - cbn [app option_loop]. 
    unfold bind, dbg, emit; cbv beta iota.
    destruct (Ascii.eqb option "p").
    { unfold bind, dbg, emit. split_loop IH. }
    destruct (Ascii.eqb option "q").
    { unfold bind, dbg, emit. 
      repeat (match goal with
              | |- context [if strcmp_eq0 ?a ?b then _ else _] =>
                  destruct (strcmp_eq0 a b) end;
              [split_loop IH|]).
      reflexivity. }
    destruct (Ascii.eqb option "r").
    { unfold bind, dbg, emit. split_loop IH. }
    destruct (Ascii.eqb option "d").
    { unfold bind, udevdb_open_ro, udevdb_dump, udevdb_exit, printf, emit, ret.
      destruct (udevdb_open_ro_result w =? 0); cbn [negb]; [|reflexivity].
      unfold bind.
      destruct (for_each_record print_record _ _) as [[u s1] t1].
      reflexivity. }
    destruct (Ascii.eqb option "V"); [reflexivity|].
    destruct (Ascii.eqb option "h"); reflexivity.
Qed.

Lemma option_loop_continues (w : world) (pre : list getopt_result) :
  forall (l : locals) (s : state),
  forallb continues pre = true ->
  exists l' t,
    option_loop w pre l s = (Loop_end l', s, t) /\ only_tracing t = true /\
    retval l' = retval l.
Proof.
  induction pre as [|[option optarg] pre IH]; intros l s H.
  - exists l, []. repeat split.
  - cbn [forallb] in H. apply andb_true_iff in H as [Hc H].
    cbn [option_loop]. unfold bind, dbg, emit.
    unfold continues in Hc.
    destruct (Ascii.eqb option "p").
    { destruct (IH (mk_locals (retval l) (root l) (query l) (strfieldcpy w optarg)) s H) as (l' & t & -> & Ht & Hr).
      eexists _, _. split; [reflexivity|]. split; [exact Ht | exact Hr]. }
    destruct (Ascii.eqb option "q") eqn:Eq.
    { cbn [orb andb] in Hc.
      destruct (Ascii.eqb option "r") eqn:Er.
      { apply Ascii.eqb_eq in Eq, Er. congruence. }
      cbn [orb] in Hc. unfold known_query, query_names in Hc. cbn [existsb] in Hc.
      unfold strcmp_eq0.
      repeat (match goal with
              | |- context [if String.eqb ?a ?b then _ else _] =>
                  destruct (String.eqb a b) end;
              [match goal with |- context [option_loop w pre ?l1 s] =>
                 destruct (IH l1 s H) as (l' & t & -> & Ht & Hr) end;
               eexists _, _; split; [reflexivity|]; split; [exact Ht | exact Hr]|]).
      discriminate. }
    cbn [orb andb] in Hc. rewrite orb_false_r in Hc. rewrite Hc.
    destruct (IH (mk_locals (retval l) true (query l) (path l)) s H) as (l' & t & -> & Ht & Hr).
    eexists _, _. split; [reflexivity|]. split; [exact Ht | exact Hr].
Qed.

Lemma printed_app (t1 t2 : list event) :
  printed (t1 ++ t2)%list = (printed t1 ++ printed t2)%list.
Proof. apply flat_map_app. Qed.

Lemma only_tracing_printed (t : list event) :
  only_tracing t = true -> printed t = [].
Proof.
  induction t as [|e t IH]; [reflexivity|].
  cbn [only_tracing forallb]; intros H.
  apply andb_true_iff in H as [He Ht].
  destruct e; try discriminate. exact (IH Ht).
Qed.

Lemma only_tracing_no_database_event (t : list event) :
  only_tracing t = true -> no_database_event t = true.
Proof.
  induction t as [|e t IH]; [reflexivity|].
  cbn [only_tracing no_database_event forallb]; intros H.
  apply andb_true_iff in H as [He Ht].
  destruct e; try discriminate. exact (IH Ht).
Qed.

Lemma no_database_event_app (t1 t2 : list event) :
  no_database_event (t1 ++ t2)%list =
  no_database_event t1 && no_database_event t2.
Proof. apply forallb_app. Qed.

(** Leaving the loop by [break] or by [goto help] has changed nothing and
    printed nothing. *)
Lemma option_loop_quiet (w : world) (results : list getopt_result) :
  forall (l : locals) (s : state),
  match option_loop w results l s with
  | (Return _, _, _) => True
  | (_, s1, t1) => s1 = s /\ only_tracing t1 = true
  end.
Proof.
  induction results as [|[option optarg] results IH]; intros l s.
  - cbn. auto.
  - cbn [option_loop]. unfold bind, dbg, emit; cbv beta iota.
    destruct (Ascii.eqb option "p").
    { match goal with
      | |- context [option_loop w results ?l1 s] =>
          specialize (IH l1 s);
          destruct (option_loop w results l1 s) as [[[st|lh|l'] s1] t1]
      end; auto. }
    destruct (Ascii.eqb option "q").
    { unfold strcmp_eq0.
      repeat (match goal with
              | |- context [if String.eqb ?a ?b then _ else _] =>
                  destruct (String.eqb a b)
              end;
              [match goal with
               | |- context [option_loop w results ?l1 s] =>
                   specialize (IH l1 s);
                   destruct (option_loop w results l1 s)
                     as [[[st|lh|l'] s1] t1]
               end; auto|]).
      exact I. }
    destruct (Ascii.eqb option "r").
    { match goal with
      | |- context [option_loop w results ?l1 s] =>
          specialize (IH l1 s);
          destruct (option_loop w results l1 s) as [[[st|lh|l'] s1] t1]
      end; auto. }
    destruct (Ascii.eqb option "d").
    { unfold udevdb_open_ro, udevdb_dump, udevdb_exit, printf, emit, ret, bind.
      destruct (udevdb_open_ro_result w =? 0); cbn [negb]; [|exact I].
      destruct (for_each_record print_record _ _) as [[u s1] t1].
      exact I. }
    destruct (Ascii.eqb option "V"); [exact I|].
    destruct (Ascii.eqb option "h"); cbn; auto.
Qed.

Lemma option_loop_end_quiet
  (w : world) (results : list getopt_result) (l l' : locals)
  (s s1 : state) (t1 : list event) :
  option_loop w results l s = (Loop_end l', s1, t1) ->
  s1 = s /\ only_tracing t1 = true.
Proof.
  intros H. pose proof (option_loop_quiet w results l s) as Q.
  rewrite H in Q. exact Q.
Qed.

(** ** The scan of the command line *)

Lemma getopt_results_cons
  (posix : bool) (optstring arg : string) (rest : list string) :
  getopt_results posix optstring (arg :: rest) =
  if String.eqb arg "--" then []
  else
    match option_cluster arg with
    | None => if posix then [] else getopt_results posix optstring rest
    | Some cluster =>
        let (rs, pending) := scan_cluster optstring cluster in
        match pending with
        | None => (rs ++ getopt_results posix optstring rest)%list
        | Some c =>
            match rest with
            | [] => (rs ++ [question_mark])%list
            | value :: rest' =>
                (rs ++ (c, value) :: getopt_results posix optstring rest')%list
            end
        end
    end.
Proof. reflexivity. Qed.

Lemma getopt_whole_cons (optstring arg : string) (rest : list string) :
  getopt_whole optstring (arg :: rest) =
  if String.eqb arg "--" then false
  else
    match option_cluster arg with
    | None => getopt_whole optstring rest
    | Some cluster =>
        match snd (scan_cluster optstring cluster) with
        | None => getopt_whole optstring rest
        | Some _ =>
            match rest with
            | [] => false
            | _ :: rest' => getopt_whole optstring rest'
            end
        end
    end.
Proof. reflexivity. Qed.

Lemma getopt_through_cons
  (posix : bool) (optstring arg : string) (rest : list string) :
  getopt_through posix optstring (arg :: rest) =
  if String.eqb arg "--" then false
  else
    match option_cluster arg with
    | None => negb posix && getopt_through posix optstring rest
    | Some cluster =>
        match snd (scan_cluster optstring cluster) with
        | None => getopt_through posix optstring rest
        | Some _ =>
            match rest with
            | [] => false
            | _ :: rest' => getopt_through posix optstring rest'
            end
        end
    end.
Proof. reflexivity. Qed.

(** A scan that goes through [before] goes on with what follows. *)
Lemma getopt_results_app
  (posix : bool) (optstring : string) (before after : list string) :
  getopt_through posix optstring before = true ->
  getopt_results posix optstring (before ++ after)%list =
  (getopt_results posix optstring before ++
   getopt_results posix optstring after)%list.
Proof.
  enough (H : (getopt_through posix optstring before = true ->
               getopt_results posix optstring (before ++ after)%list =
               (getopt_results posix optstring before ++
                getopt_results posix optstring after)%list) /\
              (forall arg,
                 getopt_through posix optstring (arg :: before) = true ->
                 getopt_results posix optstring ((arg :: before) ++ after)%list =
                 (getopt_results posix optstring (arg :: before) ++
                  getopt_results posix optstring after)%list))
    by apply H.
  induction before as [|b before [IH1 IH2]].
  - split; [reflexivity|].
    intros arg. cbn [app].
    rewrite !(getopt_results_cons posix optstring arg),
      (getopt_through_cons posix optstring arg).
    destruct (String.eqb arg "--"); [discriminate|].
    destruct (option_cluster arg) as [cluster|].
    + destruct (scan_cluster optstring cluster) as [rs [c|]]; cbn [snd];
        [discriminate|].
      intros _. cbn [getopt_results]. now rewrite app_nil_r.
    + destruct posix; [discriminate | reflexivity].
  - split; [apply IH2|].
    intros arg.
    change ((arg :: b :: before) ++ after)%list
      with (arg :: ((b :: before) ++ after))%list.
    rewrite !(getopt_results_cons posix optstring arg),
      (getopt_through_cons posix optstring arg).
    destruct (String.eqb arg "--"); [discriminate|].
    destruct (option_cluster arg) as [cluster|].
    + destruct (scan_cluster optstring cluster) as [rs [c|]]; cbn [snd app];
        intros H.
      * rewrite (IH1 H). now rewrite <- app_assoc.
      * pose proof (IH2 b H) as E; cbn [app] in E.
        rewrite E. now rewrite app_assoc.
    + destruct posix; [discriminate|]. cbn [negb andb]. apply IH2.
Qed.

(** A scan of [before] with no [--] and no option left waiting either
    goes on with what follows or, under POSIXLY_CORRECT, has stopped at a
    non-option element and does not see what follows. *)
Lemma getopt_results_app_or_stop
  (posix : bool) (optstring : string) (before : list string) :
  getopt_whole optstring before = true ->
  (forall after,
     getopt_results posix optstring (before ++ after)%list =
     (getopt_results posix optstring before ++
      getopt_results posix optstring after)%list) \/
  (forall after,
     getopt_results posix optstring (before ++ after)%list =
     getopt_results posix optstring before).
Proof.
  destruct posix.
  - enough (H : (getopt_whole optstring before = true ->
                 (forall after,
                    getopt_results true optstring (before ++ after)%list =
                    (getopt_results true optstring before ++
                     getopt_results true optstring after)%list) \/
                 (forall after,
                    getopt_results true optstring (before ++ after)%list =
                    getopt_results true optstring before)) /\
                (forall arg,
                   getopt_whole optstring (arg :: before) = true ->
                   (forall after,
                      getopt_results true optstring
                        ((arg :: before) ++ after)%list =
                      (getopt_results true optstring (arg :: before) ++
                       getopt_results true optstring after)%list) \/
                   (forall after,
                      getopt_results true optstring
                        ((arg :: before) ++ after)%list =
                      getopt_results true optstring (arg :: before))))
      by apply H.
    induction before as [|b before [IH1 IH2]].
    + split; [intros _; left; reflexivity|].
      intros arg. rewrite (getopt_whole_cons optstring arg).
      destruct (String.eqb arg "--") eqn:Edash; [discriminate|].
      destruct (option_cluster arg) as [cluster|] eqn:Ecluster.
      * destruct (scan_cluster optstring cluster) as [rs [c|]] eqn:Escan;
          cbn [snd]; [discriminate|].
        intros _. left. intros after. cbn [app].
        rewrite !(getopt_results_cons true optstring arg).
        rewrite Edash, Ecluster, Escan. cbn [getopt_results].
        now rewrite app_nil_r.
      * intros _. right. intros after. cbn [app].
        rewrite !(getopt_results_cons true optstring arg).
        now rewrite Edash, Ecluster.
    + split; [apply IH2|].
      intros arg. rewrite (getopt_whole_cons optstring arg).
      destruct (String.eqb arg "--") eqn:Edash; [discriminate|].
      destruct (option_cluster arg) as [cluster|] eqn:Ecluster.
      * destruct (scan_cluster optstring cluster) as [rs [c|]] eqn:Escan;
          cbn [snd]; intros H.
        -- destruct (IH1 H) as [Happ|Hstop]; [left | right]; intros after;
             change ((arg :: b :: before) ++ after)%list
               with (arg :: b :: (before ++ after))%list;
             rewrite !(getopt_results_cons true optstring arg);
             rewrite Edash, Ecluster, Escan.
           ++ rewrite Happ. now rewrite <- app_assoc.
           ++ now rewrite Hstop.
        -- destruct (IH2 b H) as [Happ|Hstop]; [left | right]; intros after;
             change ((arg :: b :: before) ++ after)%list
               with (arg :: ((b :: before) ++ after))%list;
             rewrite !(getopt_results_cons true optstring arg);
             rewrite Edash, Ecluster, Escan.
           ++ rewrite Happ. now rewrite app_assoc.
           ++ now rewrite Hstop.
      * intros _. right. intros after.
        change ((arg :: b :: before) ++ after)%list
          with (arg :: ((b :: before) ++ after))%list.
        rewrite !(getopt_results_cons true optstring arg).
        now rewrite Edash, Ecluster.
  - intros Hwhole. left. intros after. apply getopt_results_app.
    clear after. revert Hwhole.
    enough (H : (getopt_whole optstring before = true ->
                 getopt_through false optstring before = true) /\
                (forall arg,
                   getopt_whole optstring (arg :: before) = true ->
                   getopt_through false optstring (arg :: before) = true))
      by apply H.
    induction before as [|b before [IH1 IH2]].
    + split; [reflexivity|]. intros arg.
      rewrite getopt_whole_cons, getopt_through_cons.
      destruct (String.eqb arg "--"); [discriminate|].
      destruct (option_cluster arg); [|reflexivity].
      destruct (snd (scan_cluster optstring s)); [discriminate | reflexivity].
    + split; [apply IH2|]. intros arg.
      rewrite (getopt_whole_cons optstring arg),
        (getopt_through_cons false optstring arg).
      destruct (String.eqb arg "--"); [discriminate|].
      destruct (option_cluster arg); [|apply IH2].
      destruct (snd (scan_cluster optstring s)); [apply IH1 | apply IH2].
Qed.

(** ** The query command line *)

Lemma udev_user_after_loop
  (w : world) (argv : list string) (s s1 : state) (e : loop_exit)
  (t1 : list event) :
  option_loop w (getopt w short_options argv) initial_locals s
  = (e, s1, t1) ->
  udev_user w argv s =
  let '(r, s2, t2) :=
    match e with
    | Return status => ret status
    | Goto_help l => help l
    | Loop_end l => process_options w l
    end s1 in
  (r, s2, (t1 ++ t2)%list).
Proof. intros H. unfold udev_user, bind. now rewrite H. Qed.

Lemma process_options_lookup (w : world) (l : locals) (s : state) :
  query l <> NONE ->
  path l <> EmptyString ->
  udevdb_open_ro_result w = 0 ->
  process_options w l s =
  match db_lookup (path l) (db s) with
  | Some dev =>
      (0, mk_state (db s) false,
       [Call_udevdb_open_ro; Call_udevdb_get_dev (path l);
        Printf (query_result w l dev ++ newline); Call_udevdb_exit])
  | None =>
      (Z.neg (udevdb_get_dev_errno w), mk_state (db s) false,
       [Call_udevdb_open_ro; Call_udevdb_get_dev (path l);
        Printf ("device not found in udev database" ++ newline);
        Call_udevdb_exit])
  end.
Proof.
  intros Hq Hp Ho. unfold process_options.
  destruct (query l) eqn:Eq; [congruence| | | |];
    (destruct (path l) eqn:Ep; [congruence|]);
    cbn [is_NONE negb]; run; rewrite Ho; cbn [Z.eqb negb fst snd app db];
    destruct (db_lookup _ (db s)); reflexivity.
Qed.


Lemma string_length_append (a b : string) :
  String.length (a ++ b) = (String.length a + String.length b)%nat.
Proof. induction a as [|c a IH]; simpl; [reflexivity | now rewrite IH]. Qed.

Lemma query_result_resolved (w : world) (l : locals) (dev : udevice) :
  fits w (resolved w (query l) (root l) dev) ->
  query_result w l dev = resolved w (query l) (root l) dev.
Proof.
  unfold fits, query_result, resolved, strncat, strfieldcpy.
  destruct (query l); [reflexivity| | | |]; intros H;
    try (apply take_chars_all; lia).
  destruct (root l).
  - rewrite string_length_append in H.
    rewrite !take_chars_all by lia. reflexivity.
  - rewrite take_chars_all by lia. reflexivity.
Qed.

(** C5 (as amended): for every query whose kind is not None and whose
    path is found in the database (the path is given, the database opens
    and holds a record for it), when the string to print fits the result
    buffer (it has fewer than [NAME_SIZE] characters) the line printed
    is: for Name with the root prefix, the device root followed by the
    record's name; for Name without it, the name alone; for Symlink,
    Owner and Group, that field of the record.  The status is 0. *)
Theorem query_prints_the_resolved_field
  (w : world) (argv : list string) (s s1 : state) (l : locals)
  (t1 : list event) (dev : udevice)
  (Hloop : option_loop w (getopt w short_options argv)
             initial_locals s = (Loop_end l, s1, t1))
  (Hkind : query l <> NONE)
  (Hpath : path l <> EmptyString)
  (Hopen : udevdb_open_ro_result w = 0)
  (Hfound : db_lookup (path l) (db s) = Some dev)
  (Hfits : fits w (resolved w (query l) (root l) dev)) :
  printed (trace_of (udev_user w argv s)) =
    [resolved w (query l) (root l) dev ++ newline] /\
  result_of (udev_user w argv s) = 0.
Proof.
  destruct (option_loop_end_quiet _ _ _ _ _ _ _ Hloop) as [-> Hquiet].
  rewrite (udev_user_after_loop _ _ _ _ _ _ Hloop).
  rewrite (process_options_lookup w l s Hkind Hpath Hopen), Hfound.
  unfold trace_of, result_of; cbn [fst snd].
  rewrite printed_app, (only_tracing_printed _ Hquiet).
  rewrite (query_result_resolved w l dev Hfits).
  split; reflexivity.
Qed.




Lemma query_prints_the_resolved_field_witness :
  printed (trace_of (udev_user add_world
                       ["udev"; "-q"; "name"; "-p"; "/block/sda"; "-r"]
                       sda_state))
  = ["/dev/sda" ++ newline] /\
  result_of (udev_user add_world
               ["udev"; "-q"; "name"; "-p"; "/block/sda"; "-r"] sda_state)
  = 0.
Proof.
  eapply (query_prints_the_resolved_field add_world
            ["udev"; "-q"; "name"; "-p"; "/block/sda"; "-r"]
            sda_state sda_state (mk_locals (- EINVAL) true NAME "/block/sda")
            _ sda).
  - vm_compute; reflexivity.
  - discriminate.
  - discriminate.
  - reflexivity.
  - reflexivity.
  - unfold fits; cbn; lia.
Defined.

(** C5 (as stated) fails: with a device root of 129 characters and
    [NAME_SIZE] = 128, the query for the name with the root prefix of a
    record found in the database, whose name is empty, prints the first
    127 characters of the root, which is not the root followed by the
    name. *)
Lemma query_with_long_root_prints_a_truncated_root :
  String.length (udev_root deep_root_world) = 129%nat /\
  db_lookup "/block/sda" (db nameless_state) = Some nameless /\
  printed (trace_of (udev_user deep_root_world
                       ["udev"; "-q"; "name"; "-r"; "-p"; "/block/sda"]
                       nameless_state))
  = [take_chars 127 (udev_root deep_root_world) ++ newline] /\
  printed (trace_of (udev_user deep_root_world
                       ["udev"; "-q"; "name"; "-r"; "-p"; "/block/sda"]
                       nameless_state))
  <> [udev_root deep_root_world ++ name nameless ++ newline].
Proof.
  split; [reflexivity|].
  split; [reflexivity|].
  split; [reflexivity|].
  intros H. apply (f_equal (map String.length)) in H.
  vm_compute in H. discriminate H.
Qed.


Lemma option_loop_unknown_query
  (w : world) (value : string) (rest : list getopt_result) (l : locals)
  (s : state) :
  known_query value = false ->
  option_loop w (("q"%char, value) :: rest) l s =
  (Return (- EINVAL), s,
   [Dbg "option 'q'"; Dbg ("udev query: " ++ value ++ newline);
    Printf ("unknown query type" ++ newline)]).
Proof.
  unfold known_query, query_names; cbn [existsb]; intros H.
  cbn [option_loop Ascii.eqb Bool.eqb]. unfold strcmp_eq0.
  destruct (String.eqb value "name"); [discriminate|].
  destruct (String.eqb value "symlink"); [discriminate|].
  destruct (String.eqb value "owner"); [discriminate|].
  destruct (String.eqb value "group"); [discriminate|].
  reflexivity.
Qed.

Lemma option_loop_known_query (w : world) (value : string) :
  known_query value = true ->
  exists kind,
    kind <> NONE /\
    forall (rest : list getopt_result) (l : locals) (s : state),
      option_loop w (("q"%char, value) :: rest) l s =
      let '(e, s2, t2) :=
        option_loop w rest (mk_locals (retval l) (root l) kind (path l)) s in
      (e, s2,
       Dbg "option 'q'" :: Dbg ("udev query: " ++ value ++ newline) :: t2).
Proof.
  unfold known_query, query_names; cbn [existsb]; intros H.
  assert (Hstep : forall kind rest l s,
            (let '(b, s2, t2) :=
               let '(b, s2, t2) :=
                 option_loop w rest
                   (mk_locals (retval l) (root l) kind (path l)) s in
               (b, s2, ([Dbg ("udev query: " ++ value ++ newline)] ++ t2)%list)
             in (b, s2, ([Dbg "option 'q'"] ++ t2)%list)) =
            (let '(e, s2, t2) :=
               option_loop w rest
                 (mk_locals (retval l) (root l) kind (path l)) s in
             (e, s2,
              Dbg "option 'q'"
              :: Dbg ("udev query: " ++ value ++ newline) :: t2))).
  { intros kind rest l s.
    destruct (option_loop w rest _ s) as [[e s2] t2]; reflexivity. }
  destruct (String.eqb value "name") eqn:E1;
    [exists NAME|
     destruct (String.eqb value "symlink") eqn:E2;
     [exists SYMLINK|
      destruct (String.eqb value "owner") eqn:E3;
      [exists OWNER|
       destruct (String.eqb value "group") eqn:E4;
       [exists GROUP|discriminate]]]];
    (split; [discriminate|]); intros rest l s;
    cbn [option_loop Ascii.eqb Bool.eqb]; unfold strcmp_eq0;
    rewrite ?E1, ?E2, ?E3, ?E4;
    unfold bind, dbg, emit; cbv beta iota; apply Hstep.
Qed.

(** C8 (as amended): for every invocation in which the option loop
    reaches a [-q] whose value is not one of name, symlink, owner, group
    (every option before it being [-p], [-r] or [-q] with one of these
    values), the command prints "unknown query type", returns -EINVAL,
    which is not zero, and never opens the database. *)
Theorem unknown_query_type_is_an_error
  (w : world) (argv : list string) (s : state)
  (before after : list getopt_result) (value : string)
  (Hscan : getopt w short_options argv
           = (before ++ ("q"%char, value) :: after)%list)
  (Hbefore : forallb continues before = true)
  (Hvalue : known_query value = false) :
  printed (trace_of (udev_user w argv s)) = ["unknown query type" ++ newline]
  /\ result_of (udev_user w argv s) = - EINVAL
  /\ - EINVAL <> 0
  /\ state_of (udev_user w argv s) = s
  /\ no_database_event (trace_of (udev_user w argv s)) = true.
Proof.
  destruct (option_loop_continues w before initial_locals s Hbefore)
    as (l' & t & Hloop & Ht & _).
  assert (Hall :
    option_loop w (getopt w short_options argv) initial_locals s
    = (Return (- EINVAL), s,
       (t ++ [Dbg "option 'q'"; Dbg ("udev query: " ++ value ++ newline);
              Printf ("unknown query type" ++ newline)])%list)).
  { rewrite Hscan, option_loop_app, Hloop.
    now rewrite (option_loop_unknown_query w value after l' s Hvalue). }
  rewrite (udev_user_after_loop _ _ _ _ _ _ Hall).
  unfold ret, trace_of, result_of, state_of; cbn [fst snd].
  rewrite app_nil_r, printed_app, (only_tracing_printed _ Ht).
  rewrite no_database_event_app, (only_tracing_no_database_event _ Ht).
  repeat (split; [reflexivity|]).
  split; [discriminate|]. split; reflexivity.
Qed.

Lemma unknown_query_type_is_an_error_witness :
  printed (trace_of (udev_user add_world ["udev"; "-r"; "-q"; "bogus"; "-d"]
                       sda_state))
  = ["unknown query type" ++ newline] /\
  result_of (udev_user add_world ["udev"; "-r"; "-q"; "bogus"; "-d"] sda_state)
  = -22 /\
  no_database_event
    (trace_of (udev_user add_world ["udev"; "-r"; "-q"; "bogus"; "-d"]
                 sda_state)) = true.
Proof.
  destruct (unknown_query_type_is_an_error add_world
              ["udev"; "-r"; "-q"; "bogus"; "-d"] sda_state
              [("r"%char, EmptyString)] [("d"%char, EmptyString)] "bogus"
              eq_refl eq_refl eq_refl)
    as (Hprinted & Hstatus & _ & _ & Hdb).
  split; [exact Hprinted|]. split; [exact Hstatus | exact Hdb].
Defined.

(** C8 (as stated) fails: in [udev -d -q bogus] the value of [-q] is not a
    query name, yet the database is opened and dumped, nothing is said of
    the query type, and the status is 0. *)
Lemma unknown_query_type_after_dump_opens_the_database :
  known_query "bogus" = false /\
  In Call_udevdb_open_ro
     (trace_of (udev_user add_world ["udev"; "-d"; "-q"; "bogus"] sda_state))
  /\ ~ In ("unknown query type" ++ newline)
          (printed (trace_of (udev_user add_world
                                ["udev"; "-d"; "-q"; "bogus"] sda_state)))
  /\ result_of (udev_user add_world ["udev"; "-d"; "-q"; "bogus"] sda_state)
     = 0.
Proof.
  split; [reflexivity|].
  split; [cbn; tauto|].
  split; [|reflexivity].
  cbn. intuition discriminate.
Qed.

Lemma udev_user_same_loop (w : world) (argv1 argv2 : list string) (s : state) :
  option_loop w (getopt w short_options argv1) initial_locals s =
  option_loop w (getopt w short_options argv2) initial_locals s ->
  udev_user w argv1 s = udev_user w argv2 s.
Proof. intros H. unfold udev_user, bind. now rewrite H. Qed.

Lemma option_loop_same_tail
  (w : world) (before : list getopt_result) (r : getopt_result)
  (after : list getopt_result) (l : locals) (s : state) :
  (forall l' s', option_loop w (r :: after) l' s' = option_loop w [r] l' s') ->
  option_loop w (before ++ r :: after)%list l s =
  option_loop w (before ++ [r])%list l s.
Proof.
  intros H. rewrite !option_loop_app.
  destruct (option_loop w before l s) as [[[st|lh|l'] s1] t1];
    try reflexivity.
  now rewrite H.
Qed.

(** C6 (as amended): [-d] ends option processing at its first use, and so
    does a [-q] whose value is not a query name: what follows either on
    the command line is ignored.  A [-q] whose value is name, symlink,
    owner or group does not: it sets the query kind and the loop goes on
    with the options after it. *)
Theorem dump_and_unknown_query_end_option_processing
  (w : world) (prog : string) (before after : list string) (value : string)
  (s : state)
  (Hwhole : getopt_whole short_options before = true) :
  udev_user w (prog :: before ++ "-d" :: after)%list s =
    udev_user w (prog :: before ++ ["-d"])%list s /\
  (known_query value = false ->
   udev_user w (prog :: before ++ "-q" :: value :: after)%list s =
     udev_user w (prog :: before ++ ["-q"; value])%list s) /\
  (known_query value = true ->
   exists kind,
     kind <> NONE /\
     forall (rest : list getopt_result) (l : locals) (s' : state),
       option_loop w (("q"%char, value) :: rest) l s' =
       let '(e, s2, t2) :=
         option_loop w rest (mk_locals (retval l) (root l) kind (path l)) s'
       in (e, s2,
           Dbg "option 'q'" :: Dbg ("udev query: " ++ value ++ newline) :: t2)).
Proof.
  split; [|split].
  - apply udev_user_same_loop; unfold getopt; cbn [tl].
    destruct (getopt_results_app_or_stop (posixly_correct w) short_options
                before Hwhole) as [Happ|Hstop];
      [|now rewrite !Hstop].
    rewrite !Happ.
    change (getopt_results (posixly_correct w) short_options ("-d" :: after))
      with (("d"%char, EmptyString)
            :: getopt_results (posixly_correct w) short_options after).
    change (getopt_results (posixly_correct w) short_options ["-d"])
      with [("d"%char, EmptyString)].
    apply option_loop_same_tail. reflexivity.
  - intros Hvalue.
    apply udev_user_same_loop; unfold getopt; cbn [tl].
    destruct (getopt_results_app_or_stop (posixly_correct w) short_options
                before Hwhole) as [Happ|Hstop];
      [|now rewrite !Hstop].
    rewrite !Happ.
    change (getopt_results (posixly_correct w) short_options
              ("-q" :: value :: after))
      with (("q"%char, value)
            :: getopt_results (posixly_correct w) short_options after).
    change (getopt_results (posixly_correct w) short_options ["-q"; value])
      with [("q"%char, value)].
    apply option_loop_same_tail. intros l' s'.
    now rewrite !option_loop_unknown_query.
  - apply option_loop_known_query.
Qed.

Lemma dump_and_unknown_query_end_option_processing_witness :
  udev_user add_world ["udev"; "-r"; "-d"; "-q"; "name"; "-p"; "/x"] sda_state
  = udev_user add_world ["udev"; "-r"; "-d"] sda_state /\
  udev_user add_world ["udev"; "-r"; "-q"; "bogus"; "-d"] sda_state
  = udev_user add_world ["udev"; "-r"; "-q"; "bogus"] sda_state.
Proof.
  destruct (dump_and_unknown_query_end_option_processing
              add_world "udev" ["-r"] ["-q"; "name"; "-p"; "/x"] "bogus"
              sda_state eq_refl) as (Hdump & _).
  destruct (dump_and_unknown_query_end_option_processing
              add_world "udev" ["-r"] ["-d"] "bogus"
              sda_state eq_refl) as (_ & Hquery & _).
  split; [exact Hdump | exact (Hquery eq_refl)].
Defined.

(** C6 (as stated) fails for [-q]: after [-q name] a later [-p] is still
    processed (with it the query prints the name, without it the query
    lacks its path), and so is a later [-d] (the database is dumped). *)
Lemma query_option_does_not_end_option_processing :
  printed (trace_of (udev_user add_world
                       ["udev"; "-q"; "name"; "-p"; "/block/sda"] sda_state))
  = ["sda" ++ newline] /\
  printed (trace_of (udev_user add_world ["udev"; "-q"; "name"] sda_state))
  = ["query needs device path specified" ++ newline] /\
  udev_user add_world ["udev"; "-q"; "name"; "-p"; "/block/sda"] sda_state
  <> udev_user add_world ["udev"; "-q"; "name"] sda_state /\
  In Call_udevdb_dump
     (trace_of (udev_user add_world ["udev"; "-q"; "name"; "-d"] sda_state)).
Proof.
  split; [reflexivity|].
  split; [reflexivity|].
  split; [discriminate|].
  cbn; tauto.
Qed.

(** C10: in query mode [-V], and likewise [-h], ends option processing at
    its first use with status 0: when the scan of the command line gets
    to it (no [--] before it, no option before it left waiting for its
    argument and, under POSIXLY_CORRECT, no non-option element before
    it) and the options before it are of the kinds that let the loop go
    on ([-p], [-r], [-q] with a query name), the run prints the version
    (the usage text for [-h]), returns 0, leaves the state as it was and
    makes no database access, and whatever follows on the command line
    is not processed: the run is the run of the command line cut after
    the flag. *)
Theorem version_and_help_end_option_processing
  (w : world) (prog : string) (before after : list string) (s : state)
  (Hthrough : getopt_through (posixly_correct w) short_options before = true)
  (Hbefore : forallb continues
               (getopt_results (posixly_correct w) short_options before)
             = true) :
  (result_of (udev_user w (prog :: before ++ "-V" :: after)%list s) = 0 /\
   state_of (udev_user w (prog :: before ++ "-V" :: after)%list s) = s /\
   printed (trace_of (udev_user w (prog :: before ++ "-V" :: after)%list s))
   = ["udev, version " ++ UDEV_VERSION w ++ newline] /\
   no_database_event
     (trace_of (udev_user w (prog :: before ++ "-V" :: after)%list s)) = true /\
   udev_user w (prog :: before ++ "-V" :: after)%list s
   = udev_user w (prog :: before ++ ["-V"])%list s) /\
  (result_of (udev_user w (prog :: before ++ "-h" :: after)%list s) = 0 /\
   state_of (udev_user w (prog :: before ++ "-h" :: after)%list s) = s /\
   printed (trace_of (udev_user w (prog :: before ++ "-h" :: after)%list s))
   = [usage_text] /\
   no_database_event
     (trace_of (udev_user w (prog :: before ++ "-h" :: after)%list s)) = true /\
   udev_user w (prog :: before ++ "-h" :: after)%list s
   = udev_user w (prog :: before ++ ["-h"])%list s).
Proof.
  destruct (option_loop_continues w _ initial_locals s Hbefore)
    as (l' & t & Hloop & Ht & Hret).
  assert (HV : forall rest,
    option_loop w
      (getopt w short_options (prog :: before ++ "-V" :: rest)%list)
      initial_locals s
    = (Return 0, s,
       (t ++ [Dbg "option 'V'";
              Printf ("udev, version " ++ UDEV_VERSION w ++ newline)])%list)).
  { intros rest. unfold getopt; cbn [tl].
    rewrite (getopt_results_app _ _ _ _ Hthrough).
    change (getopt_results (posixly_correct w) short_options ("-V" :: rest))
      with (("V"%char, EmptyString)
            :: getopt_results (posixly_correct w) short_options rest).
    rewrite option_loop_app, Hloop. reflexivity. }
  assert (Hh : forall rest,
    option_loop w
      (getopt w short_options (prog :: before ++ "-h" :: rest)%list)
      initial_locals s
    = (Goto_help (mk_locals 0 (root l') (query l') (path l')), s,
       (t ++ [Dbg "option 'h'"])%list)).
  { intros rest. unfold getopt; cbn [tl].
    rewrite (getopt_results_app _ _ _ _ Hthrough).
    change (getopt_results (posixly_correct w) short_options ("-h" :: rest))
      with (("h"%char, EmptyString)
            :: getopt_results (posixly_correct w) short_options rest).
    rewrite option_loop_app, Hloop. reflexivity. }
  split.
  - rewrite (udev_user_after_loop _ _ _ _ _ _ (HV after)).
    rewrite (udev_user_after_loop _ _ _ _ _ _ (HV [])).
    unfold ret, trace_of, result_of, state_of; cbn [fst snd].
    rewrite app_nil_r, printed_app, (only_tracing_printed _ Ht).
    rewrite no_database_event_app, (only_tracing_no_database_event _ Ht).
    repeat (split; [reflexivity|]). reflexivity.
  - rewrite (udev_user_after_loop _ _ _ _ _ _ (Hh after)).
    rewrite (udev_user_after_loop _ _ _ _ _ _ (Hh [])).
    unfold help, bind, printf, emit, ret, trace_of, result_of, state_of;
      cbn [fst snd retval].
    rewrite app_nil_r, !printed_app, (only_tracing_printed _ Ht).
    rewrite !no_database_event_app, (only_tracing_no_database_event _ Ht).
    repeat (split; [reflexivity|]). reflexivity.
Qed.

Lemma version_and_help_end_option_processing_witness :
  udev_user add_world
    ["udev"; "-r"; "-V"; "-q"; "name"; "-p"; "/block/sda"; "-d"; "-r"]
    sda_state
  = (0, sda_state,
     [Dbg "option 'r'"; Dbg "option 'V'";
      Printf ("udev, version 009" ++ newline)]) /\
  result_of (udev_user add_world ["udev"; "-p"; "/block/sda"; "-h"; "-d"]
               sda_state) = 0.
Proof.
  destruct (version_and_help_end_option_processing add_world "udev"
              ["-r"] ["-q"; "name"; "-p"; "/block/sda"; "-d"; "-r"] sda_state
              eq_refl eq_refl) as ((_ & _ & _ & _ & Hcut) & _).
  destruct (version_and_help_end_option_processing add_world "udev"
              ["-p"; "/block/sda"] ["-d"] sda_state
              eq_refl eq_refl) as (_ & (Hstatus & _)).
  split; [exact Hcut | exact Hstatus].
Defined.

(** ** Further properties of the hotplug dispatcher *)

(** X1: the dispatcher never writes to the standard output, whatever the
    environment, the arguments and the collaborators' results. *)
Theorem hotplug_prints_nothing (w : world) (argv : list string) (s : state) :
  printed (trace_of (udev_hotplug w argv s)) = [].
Proof. hotplug_paths w argv; reflexivity. Qed.

(** X2: the dispatcher pairs its resources in every run: the bus is
    disconnected as often as it is connected (at most once) and, if the
    bus was connected, the disconnection is the last thing done; a run
    either leaves the state as it found it or ends with the database
    handle released. *)
Theorem hotplug_releases_what_it_acquires
  (w : world) (argv : list string) (s : state) :
  List.length (filter bus_connect_event (trace_of (udev_hotplug w argv s))) =
  List.length (filter bus_disconnect_event (trace_of (udev_hotplug w argv s)))
  /\ (List.length
        (filter bus_connect_event (trace_of (udev_hotplug w argv s))) <= 1)%nat
  /\ (existsb bus_connect_event (trace_of (udev_hotplug w argv s)) = true ->
      last (trace_of (udev_hotplug w argv s)) Call_sysbus_connect
      = Call_sysbus_disconnect)
  /\ (state_of (udev_hotplug w argv s) = s \/
      db_open (state_of (udev_hotplug w argv s)) = false).
Proof.
  hotplug_paths w argv; cbn;
    (split; [reflexivity|]); (split; [lia|]);
    (split; [try discriminate; reflexivity|]); auto.
Qed.

(** X3: when the database cannot be initialised the action is skipped: no
    signal handler is installed, the naming engine is not initialised,
    nothing is added or removed and the state is untouched, but the bus
    is still disconnected.  The status is the normalised failure code: a
    negative code is reported as its absolute value, a positive code as
    0. *)
Theorem hotplug_database_failure_skips_the_action
  (w : world) (prog subsystem devpath action : string) (s : state)
  (Hdevpath : get_devpath w = Some devpath)
  (Hkind : contains devpath "class" \/ contains devpath "block")
  (Hsubsystem : ~ In subsystem blacklisted_subsystems)
  (Haction : get_action w = Some action)
  (Hinit : udevdb_init_result w <> 0) :
  udev_hotplug w [prog; subsystem] s =
    (hotplug_exit (udevdb_init_result w), s,
     [Dbg ("looking at '" ++ devpath ++ "'"); Call_sysbus_connect;
      Call_udevdb_init UDEVDB_DEFAULT;
      Dbg "unable to initialize database"; Call_sysbus_disconnect]) /\
  (0 < udevdb_init_result w -> hotplug_exit (udevdb_init_result w) = 0) /\
  (INT_MIN < udevdb_init_result w < 0 ->
   hotplug_exit (udevdb_init_result w) = - udevdb_init_result w).
Proof.
  split; [|split].
  - rewrite udev_hotplug_unfold.
    rewrite (hotplug_body_accepted w prog subsystem devpath s
               Hdevpath Hkind Hsubsystem), Haction.
    apply Z.eqb_neq in Hinit; rewrite Hinit. reflexivity.
  - intros Hpos. unfold hotplug_exit.
    destruct (Z.gtb_spec (udevdb_init_result w) 0); [reflexivity | lia].
  - intros Hneg. unfold hotplug_exit.
    destruct (Z.gtb_spec (udevdb_init_result w) 0); [lia|].
    apply int_neg_defined. unfold INT_MAX, INT_MIN in *. lia.
Qed.

Lemma hotplug_database_failure_skips_the_action_witness :
  udev_hotplug locked_world ["udev"; "block"] sda_state =
  (13, sda_state,
   [Dbg "looking at '/block/sda'"; Call_sysbus_connect;
    Call_udevdb_init UDEVDB_DEFAULT;
    Dbg "unable to initialize database"; Call_sysbus_disconnect]).
Proof.
  assert (Hk : contains "/block/sda" "class" \/ contains "/block/sda" "block")
    by (right; exists "/", "/sda"; reflexivity).
  assert (Hs : ~ In "block" blacklisted_subsystems)
    by (simpl; intuition discriminate).
  assert (Hi : udevdb_init_result locked_world <> 0) by discriminate.
  destruct (hotplug_database_failure_skips_the_action
              locked_world "udev" "block" "/block/sda" "add" sda_state
              eq_refl Hk Hs eq_refl Hi) as (Hrun & _).
  exact Hrun.
Defined.

(** X4: an ACTION other than "add" and "remove" (the comparison is exact)
    is an error: with the event accepted and the database initialised,
    the bus and the database are set up and torn down, nothing is added
    or removed, the records are as before, and the status is EINVAL. *)
Theorem hotplug_unknown_action_is_EINVAL
  (w : world) (prog subsystem devpath action : string) (s : state)
  (Hdevpath : get_devpath w = Some devpath)
  (Hkind : contains devpath "class" \/ contains devpath "block")
  (Hsubsystem : ~ In subsystem blacklisted_subsystems)
  (Haction : get_action w = Some action)
  (Hinit : udevdb_init_result w = 0)
  (Hadd : action <> "add")
  (Hremove : action <> "remove") :
  udev_hotplug w [prog; subsystem] s =
    (EINVAL, mk_state (db s) false,
     [Dbg ("looking at '" ++ devpath ++ "'"); Call_sysbus_connect;
      Call_udevdb_init UDEVDB_DEFAULT;
      Call_signal SIGINT; Call_signal SIGTERM; Call_signal SIGKILL;
      Call_namedev_init; Dbg ("unknown action '" ++ action ++ "'");
      Call_udevdb_exit; Call_sysbus_disconnect]).
Proof.
  rewrite udev_hotplug_unfold.
  rewrite (hotplug_body_accepted w prog subsystem devpath s
             Hdevpath Hkind Hsubsystem), Haction, Hinit.
  apply String.eqb_neq in Hadd, Hremove.
  unfold strcmp_eq0. rewrite Hadd, Hremove. reflexivity.
Qed.

Lemma hotplug_unknown_action_is_EINVAL_witness :
  result_of (udev_hotplug change_world ["udev"; "block"] sda_state) = 22 /\
  state_of (udev_hotplug change_world ["udev"; "block"] sda_state) = sda_state.
Proof.
  assert (Hk : contains "/block/sda" "class" \/ contains "/block/sda" "block")
    by (right; exists "/", "/sda"; reflexivity).
  assert (Hs : ~ In "block" blacklisted_subsystems)
    by (simpl; intuition discriminate).
  assert (Ha : "change" <> "add") by discriminate.
  assert (Hr : "change" <> "remove") by discriminate.
  rewrite (hotplug_unknown_action_is_EINVAL
             change_world "udev" "block" "/block/sda" "change" sda_state
             eq_refl Hk Hs eq_refl eq_refl Ha Hr).
  split; reflexivity.
Defined.

(** X5: a run of the dispatcher adds or removes at most once, never both,
    and only as ACTION says: a call of add-device means ACTION is "add",
    a call of remove-device means ACTION is "remove", and the call is
    made for the devpath of the environment and the subsystem of the
    command line. *)
Theorem hotplug_acts_once_as_ACTION_says
  (w : world) (argv : list string) (s : state) :
  filter add_or_remove_event (trace_of (udev_hotplug w argv s)) = [] \/
  (exists devpath,
     get_devpath w = Some devpath /\ get_action w = Some "add" /\
     filter add_or_remove_event (trace_of (udev_hotplug w argv s))
     = [Call_udev_add_device devpath (nth 1 argv EmptyString)]) \/
  (exists devpath,
     get_devpath w = Some devpath /\ get_action w = Some "remove" /\
     filter add_or_remove_event (trace_of (udev_hotplug w argv s))
     = [Call_udev_remove_device devpath (nth 1 argv EmptyString)]).
Proof.
  hotplug_paths w argv; cbn; auto.
  - right; left. exists devpath.
    apply String.eqb_eq in Hadd as ->. auto.
  - right; right. exists devpath.
    apply String.eqb_eq in Hremove as ->. auto.
Qed.

(** X6: a run of the dispatcher touches no record but that of its own
    DEVPATH: the record of every other path is as before, whatever the
    action. *)
Theorem hotplug_leaves_other_paths_alone
  (w : world) (argv : list string) (s : state) (other : string)
  (Hother : get_devpath w <> Some other) :
  db_lookup other (db (state_of (udev_hotplug w argv s))) =
  db_lookup other (db s).
Proof.
  revert Hother. hotplug_paths w argv; cbn [db]; intros Hother;
    try reflexivity.
  - apply db_lookup_insert_or_update_other. congruence.
  - apply db_lookup_remove_other. congruence.
Qed.

Lemma hotplug_leaves_other_paths_alone_witness :
  db_lookup "/block/sdb"
    (db (state_of (udev_hotplug remove_world ["udev"; "block"]
                                two_disks_state)))
  = Some sdb.
Proof.
  assert (H : get_devpath remove_world <> Some "/block/sdb") by discriminate.
  exact (hotplug_leaves_other_paths_alone remove_world ["udev"; "block"]
           two_disks_state "/block/sdb" H).
Defined.

(** ** Further properties of the query command line *)

Lemma for_each_record_print_record (d : database) (s : state) :
  for_each_record print_record d s =
  (tt, s, map Printf (flat_map record_lines d)).
Proof.
  induction d as [|[p dev] d IH]; [reflexivity|].
  cbn [for_each_record flat_map].
  unfold bind at 1. unfold print_record at 1.
  unfold bind, printf, emit; cbv beta iota.
  rewrite IH. reflexivity.
Qed.

Lemma printed_map_Printf (lines : list string) :
  printed (map Printf lines) = lines.
Proof.
  induction lines as [|x lines IH]; [reflexivity|].
  cbn. unfold printed in IH. now rewrite IH.
Qed.

Lemma option_loop_end_retval (w : world) (results : list getopt_result) :
  forall (l l' : locals) (s s1 : state) (t1 : list event),
  option_loop w results l s = (Loop_end l', s1, t1) ->
  retval l' = retval l.
Proof.
  induction results as [|[option optarg] results IH]; intros l l' s s1 t1.
  - intros [= <- _ _]. reflexivity.
  - cbn [option_loop]. unfold bind, dbg, emit; cbv beta iota.
    destruct (Ascii.eqb option "p").
    { destruct (option_loop w results _ s) as [[e s2] t2] eqn:E.
      intros [= -> _ _]. now apply IH in E. }
    destruct (Ascii.eqb option "q").
    { unfold strcmp_eq0.
      repeat (match goal with
              | |- context [if String.eqb ?a ?b then _ else _] =>
                  destruct (String.eqb a b)
              end;
              [destruct (option_loop w results _ s) as [[e s2] t2] eqn:E;
               intros [= -> _ _]; now apply IH in E|]).
      discriminate. }
    destruct (Ascii.eqb option "r").
    { destruct (option_loop w results _ s) as [[e s2] t2] eqn:E.
      intros [= -> _ _]. now apply IH in E. }
    destruct (Ascii.eqb option "d").
    { unfold udevdb_open_ro, udevdb_dump, udevdb_exit, printf, emit, ret, bind.
      destruct (udevdb_open_ro_result w =? 0); cbn [negb]; [|discriminate].
      destruct (for_each_record print_record _ _) as [[u s2] t2].
      discriminate. }
    destruct (Ascii.eqb option "V"); [discriminate|].
    destruct (Ascii.eqb option "h"); discriminate.
Qed.

Lemma option_loop_dump
  (w : world) (optarg : string) (rest : list getopt_result) (l : locals)
  (s : state) :
  option_loop w (("d"%char, optarg) :: rest) l s =
  if udevdb_open_ro_result w =? 0 then
    (Return (udevdb_dump_result w), mk_state (db s) false,
     (Dbg "option 'd'" :: Call_udevdb_open_ro :: Call_udevdb_dump
      :: map Printf (flat_map record_lines (db s)) ++ [Call_udevdb_exit])%list)
  else
    (Return (- EACCES), s,
     [Dbg "option 'd'"; Call_udevdb_open_ro;
      Printf ("unable to open udev database" ++ newline)]).
Proof.
  cbn [option_loop Ascii.eqb Bool.eqb].
  unfold bind, dbg, udevdb_open_ro, udevdb_dump, udevdb_exit, printf, emit, ret.
  destruct (udevdb_open_ro_result w =? 0); cbn [negb db]; [|reflexivity].
  unfold bind; cbv beta iota; cbn [db].
  rewrite for_each_record_print_record.
  cbn [app db]. now rewrite !app_nil_r.
Qed.

(** X7: [-d], reached by the option loop with a database that opens,
    prints every record of the database in the database's order, six
    lines a record (P, N, S, O, G and an empty line), returns what the
    dump reports and releases the handle; the records are as before. *)
Theorem dump_prints_every_record
  (w : world) (argv : list string) (s : state)
  (before after : list getopt_result) (optarg : string)
  (Hscan : getopt w short_options argv
           = (before ++ ("d"%char, optarg) :: after)%list)
  (Hbefore : forallb continues before = true)
  (Hopen : udevdb_open_ro_result w = 0) :
  printed (trace_of (udev_user w argv s)) = flat_map record_lines (db s) /\
  List.length (printed (trace_of (udev_user w argv s)))
  = (6 * List.length (db s))%nat /\
  result_of (udev_user w argv s) = udevdb_dump_result w /\
  state_of (udev_user w argv s) = mk_state (db s) false.
Proof.
  destruct (option_loop_continues w before initial_locals s Hbefore)
    as (l' & t & Hloop & Ht & _).
  assert (Hall :
    option_loop w (getopt w short_options argv) initial_locals s
    = (Return (udevdb_dump_result w), mk_state (db s) false,
       (t ++ Dbg "option 'd'" :: Call_udevdb_open_ro :: Call_udevdb_dump
          :: map Printf (flat_map record_lines (db s))
          ++ [Call_udevdb_exit])%list)).
  { rewrite Hscan, option_loop_app, Hloop, option_loop_dump, Hopen.
    reflexivity. }
  rewrite (udev_user_after_loop _ _ _ _ _ _ Hall).
  unfold ret, trace_of, result_of, state_of; cbn [fst snd].
  assert (Hprinted :
    printed ((t ++ Dbg "option 'd'" :: Call_udevdb_open_ro :: Call_udevdb_dump
                :: map Printf (flat_map record_lines (db s))
                ++ [Call_udevdb_exit]) ++ [])%list
    = flat_map record_lines (db s)).
  { rewrite app_nil_r, printed_app, (only_tracing_printed _ Ht).
    cbn [app]. change (printed (?a :: ?b :: ?c :: ?r)) with (printed r).
    rewrite printed_app, printed_map_Printf. cbn. apply app_nil_r. }
  rewrite Hprinted.
  split; [reflexivity|]. split; [|split; reflexivity].
  rewrite (flat_map_constant_length (c := 6)); [lia|].
  intros x _. reflexivity.
Qed.

Lemma dump_prints_every_record_witness :
  printed (trace_of (udev_user add_world ["udev"; "-d"] two_disks_state))
  = ["P: /block/sda" ++ newline; "N: sda" ++ newline; "S: disk0" ++ newline;
     "O: root" ++ newline; "G: disk" ++ newline; newline;
     "P: /block/sdb" ++ newline; "N: sdb" ++ newline; "S: disk1" ++ newline;
     "O: root" ++ newline; "G: disk" ++ newline; newline].
Proof.
  destruct (dump_prints_every_record add_world ["udev"; "-d"] two_disks_state
              [] [] EmptyString eq_refl eq_refl eq_refl) as (Hprinted & _).
  exact Hprinted.
Defined.

(** X8: [-d], reached by the option loop with a database that cannot be
    opened, prints "unable to open udev database" and returns -EACCES;
    nothing is dumped, nothing is closed and the state is untouched. *)
Theorem dump_of_unopenable_database_is_EACCES
  (w : world) (argv : list string) (s : state)
  (before after : list getopt_result) (optarg : string)
  (Hscan : getopt w short_options argv
           = (before ++ ("d"%char, optarg) :: after)%list)
  (Hbefore : forallb continues before = true)
  (Hopen : udevdb_open_ro_result w <> 0) :
  printed (trace_of (udev_user w argv s))
  = ["unable to open udev database" ++ newline] /\
  result_of (udev_user w argv s) = - EACCES /\
  state_of (udev_user w argv s) = s /\
  filter database_event (trace_of (udev_user w argv s)) = [Call_udevdb_open_ro].
Proof.
  destruct (option_loop_continues w before initial_locals s Hbefore)
    as (l' & t & Hloop & Ht & _).
  assert (Hall :
    option_loop w (getopt w short_options argv) initial_locals s
    = (Return (- EACCES), s,
       (t ++ [Dbg "option 'd'"; Call_udevdb_open_ro;
              Printf ("unable to open udev database" ++ newline)])%list)).
  { rewrite Hscan, option_loop_app, Hloop, option_loop_dump.
    apply Z.eqb_neq in Hopen; rewrite Hopen. reflexivity. }
  rewrite (udev_user_after_loop _ _ _ _ _ _ Hall).
  unfold ret, trace_of, result_of, state_of; cbn [fst snd].
  rewrite app_nil_r, printed_app, (only_tracing_printed _ Ht), filter_app.
  assert (Hnone : filter database_event t = []).
  { clear - Ht. induction t as [|e t IH]; [reflexivity|].
    cbn [only_tracing forallb] in Ht. apply andb_true_iff in Ht as [He Ht].
    destruct e; try discriminate. exact (IH Ht). }
  rewrite Hnone. repeat split.
Qed.

Lemma dump_of_unopenable_database_is_EACCES_witness :
  printed (trace_of (udev_user locked_world ["udev"; "-r"; "-d"] sda_state))
  = ["unable to open udev database" ++ newline] /\
  result_of (udev_user locked_world ["udev"; "-r"; "-d"] sda_state) = -13 /\
  state_of (udev_user locked_world ["udev"; "-r"; "-d"] sda_state)
  = sda_state /\
  filter database_event
    (trace_of (udev_user locked_world ["udev"; "-r"; "-d"] sda_state))
  = [Call_udevdb_open_ro].
Proof.
  assert (Hopen : udevdb_open_ro_result locked_world <> 0) by discriminate.
  exact (dump_of_unopenable_database_is_EACCES locked_world
           ["udev"; "-r"; "-d"] sda_state [("r"%char, EmptyString)] []
           EmptyString eq_refl eq_refl Hopen).
Defined.

Lemma only_tracing_no_such_event (p : event -> bool) (t : list event) :
  (forall m, p (Dbg m) = false) ->
  only_tracing t = true -> filter p t = [].
Proof.
  intros Hp. induction t as [|e t IH]; [reflexivity|].
  cbn [only_tracing forallb]; intros H.
  apply andb_true_iff in H as [He Ht].
  destruct e; try discriminate. cbn [filter]. rewrite Hp. exact (IH Ht).
Qed.

(** X9: a query (kind not None, path given) on a database that cannot be
    opened prints "unable to open udev database" and returns -EACCES;
    no record is looked up, nothing is closed and the state is
    untouched. *)
Theorem query_of_unopenable_database_is_EACCES
  (w : world) (argv : list string) (s s1 : state) (l : locals)
  (t1 : list event)
  (Hloop : option_loop w (getopt w short_options argv)
             initial_locals s = (Loop_end l, s1, t1))
  (Hkind : query l <> NONE)
  (Hpath : path l <> EmptyString)
  (Hopen : udevdb_open_ro_result w <> 0) :
  printed (trace_of (udev_user w argv s))
  = ["unable to open udev database" ++ newline] /\
  result_of (udev_user w argv s) = - EACCES /\
  state_of (udev_user w argv s) = s /\
  filter database_event (trace_of (udev_user w argv s)) = [Call_udevdb_open_ro].
Proof.
  destruct (option_loop_end_quiet _ _ _ _ _ _ _ Hloop) as [-> Hquiet].
  rewrite (udev_user_after_loop _ _ _ _ _ _ Hloop).
  assert (Hrun : process_options w l s =
            (- EACCES, s,
             [Call_udevdb_open_ro;
              Printf ("unable to open udev database" ++ newline)])).
  { unfold process_options.
    destruct (query l); [congruence| | | |];
      (destruct (path l); [congruence|]);
      cbn [is_NONE negb]; run;
      apply Z.eqb_neq in Hopen; rewrite Hopen; reflexivity. }
  rewrite Hrun.
  unfold trace_of, result_of, state_of; cbn [fst snd].
  rewrite printed_app, (only_tracing_printed _ Hquiet), filter_app.
  rewrite (only_tracing_no_such_event database_event t1 (fun _ => eq_refl)
             Hquiet).
  repeat split.
Qed.

Lemma query_of_unopenable_database_is_EACCES_witness :
  printed (trace_of (udev_user locked_world
                       ["udev"; "-q"; "name"; "-p"; "/block/sda"] sda_state))
  = ["unable to open udev database" ++ newline] /\
  result_of (udev_user locked_world
               ["udev"; "-q"; "name"; "-p"; "/block/sda"] sda_state) = -13 /\
  state_of (udev_user locked_world
              ["udev"; "-q"; "name"; "-p"; "/block/sda"] sda_state)
  = sda_state /\
  filter database_event
    (trace_of (udev_user locked_world
                 ["udev"; "-q"; "name"; "-p"; "/block/sda"] sda_state))
  = [Call_udevdb_open_ro].
Proof.
  assert (Hloop :
    option_loop locked_world (getopt locked_world short_options ["udev"; "-q"; "name"; "-p"; "/block/sda"])
      initial_locals sda_state
    = (Loop_end (mk_locals (- EINVAL) false NAME "/block/sda"), sda_state,
       [Dbg "option 'q'"; Dbg ("udev query: name" ++ newline);
        Dbg "option 'p'"; Dbg ("udev path: /block/sda" ++ newline)]))
    by reflexivity.
  assert (Hkind : query (mk_locals (- EINVAL) false NAME "/block/sda") <> NONE)
    by discriminate.
  assert (Hpath : path (mk_locals (- EINVAL) false NAME "/block/sda")
                  <> EmptyString) by discriminate.
  assert (Hopen : udevdb_open_ro_result locked_world <> 0) by discriminate.
  exact (query_of_unopenable_database_is_EACCES locked_world
           ["udev"; "-q"; "name"; "-p"; "/block/sda"] sda_state sda_state
           _ _ Hloop Hkind Hpath Hopen).
Defined.

(** X10: a query without a device path (no [-p], or an empty one) prints
    "query needs device path specified" and returns -EINVAL without any
    database access. *)
Theorem query_without_path_is_EINVAL
  (w : world) (argv : list string) (s s1 : state) (l : locals)
  (t1 : list event)
  (Hloop : option_loop w (getopt w short_options argv)
             initial_locals s = (Loop_end l, s1, t1))
  (Hkind : query l <> NONE)
  (Hpath : path l = EmptyString) :
  printed (trace_of (udev_user w argv s))
  = ["query needs device path specified" ++ newline] /\
  result_of (udev_user w argv s) = - EINVAL /\
  state_of (udev_user w argv s) = s /\
  no_database_event (trace_of (udev_user w argv s)) = true.
Proof.
  destruct (option_loop_end_quiet _ _ _ _ _ _ _ Hloop) as [-> Hquiet].
  rewrite (udev_user_after_loop _ _ _ _ _ _ Hloop).
  assert (Hrun : process_options w l s =
            (- EINVAL, s,
             [Printf ("query needs device path specified" ++ newline)])).
  { unfold process_options. rewrite Hpath.
    destruct (query l); [congruence| | | |]; reflexivity. }
  rewrite Hrun.
  unfold trace_of, result_of, state_of; cbn [fst snd].
  rewrite printed_app, (only_tracing_printed _ Hquiet).
  rewrite no_database_event_app, (only_tracing_no_database_event _ Hquiet).
  repeat split.
Qed.

Lemma query_without_path_is_EINVAL_witness :
  printed (trace_of (udev_user add_world ["udev"; "-r"; "-q"; "owner"]
                       sda_state))
  = ["query needs device path specified" ++ newline] /\
  result_of (udev_user add_world ["udev"; "-r"; "-q"; "owner"] sda_state)
  = -22 /\
  state_of (udev_user add_world ["udev"; "-r"; "-q"; "owner"] sda_state)
  = sda_state /\
  no_database_event
    (trace_of (udev_user add_world ["udev"; "-r"; "-q"; "owner"] sda_state))
  = true.
Proof.
  assert (Hloop :
    option_loop add_world (getopt add_world short_options ["udev"; "-r"; "-q"; "owner"])
      initial_locals sda_state
    = (Loop_end (mk_locals (- EINVAL) true OWNER EmptyString), sda_state,
       [Dbg "option 'r'"; Dbg "option 'q'";
        Dbg ("udev query: owner" ++ newline)]))
    by reflexivity.
  assert (Hkind : query (mk_locals (- EINVAL) true OWNER EmptyString) <> NONE)
    by discriminate.
  exact (query_without_path_is_EINVAL add_world
           ["udev"; "-r"; "-q"; "owner"] sda_state sda_state _ _
           Hloop Hkind eq_refl).
Defined.

(** X11: when the options ask for no query, [-r] alone decides: with it
    the device root is printed and the status is 0, without it the usage
    text is printed and the status is the default -EINVAL (a [-p] on its
    own asks for nothing).  Neither touches the database. *)
Theorem without_query_root_or_usage
  (w : world) (argv : list string) (s s1 : state) (l : locals)
  (t1 : list event)
  (Hloop : option_loop w (getopt w short_options argv)
             initial_locals s = (Loop_end l, s1, t1))
  (Hkind : query l = NONE) :
  printed (trace_of (udev_user w argv s))
  = [if root l then udev_root w ++ newline else usage_text] /\
  result_of (udev_user w argv s) = (if root l then 0 else - EINVAL) /\
  state_of (udev_user w argv s) = s /\
  no_database_event (trace_of (udev_user w argv s)) = true.
Proof.
  pose proof (option_loop_end_retval _ _ _ _ _ _ _ Hloop) as Hretval.
  destruct (option_loop_end_quiet _ _ _ _ _ _ _ Hloop) as [-> Hquiet].
  rewrite (udev_user_after_loop _ _ _ _ _ _ Hloop).
  unfold process_options, help. rewrite Hkind, Hretval.
  cbn [is_NONE negb initial_locals retval].
  destruct (root l); run;
    rewrite printed_app, (only_tracing_printed _ Hquiet);
    rewrite no_database_event_app, (only_tracing_no_database_event _ Hquiet);
    repeat split.
Qed.

Lemma without_query_root_or_usage_witness :
  (printed (trace_of (udev_user add_world ["udev"; "-r"] sda_state))
   = ["/dev/" ++ newline] /\
   result_of (udev_user add_world ["udev"; "-r"] sda_state) = 0) /\
  (printed (trace_of (udev_user add_world ["udev"] sda_state)) = [usage_text]
   /\ result_of (udev_user add_world ["udev"] sda_state) = -22) /\
  (printed (trace_of (udev_user add_world ["udev"; "-p"; "/block/sda"]
                        sda_state)) = [usage_text]).
Proof.
  destruct (without_query_root_or_usage add_world ["udev"; "-r"]
              sda_state sda_state
              (mk_locals (- EINVAL) true NONE EmptyString)
              [Dbg "option 'r'"] eq_refl eq_refl) as (Hr1 & Hr2 & _).
  destruct (without_query_root_or_usage add_world ["udev"]
              sda_state sda_state initial_locals [] eq_refl eq_refl)
    as (Hu1 & Hu2 & _).
  destruct (without_query_root_or_usage add_world
              ["udev"; "-p"; "/block/sda"] sda_state sda_state
              (mk_locals (- EINVAL) false NONE "/block/sda")
              [Dbg "option 'p'"; Dbg ("udev path: /block/sda" ++ newline)]
              eq_refl eq_refl) as (Hp1 & _).
  split; [split; [exact Hr1 | exact Hr2]|].
  split; [split; [exact Hu1 | exact Hu2] | exact Hp1].
Defined.

(** X12: an option character the switch has no case for (the ['?'] that
    [getopt] returns for an unknown option or a missing argument), once
    reached by the option loop, prints the usage text and returns
    -EINVAL; what follows is ignored and the database is not touched. *)
Theorem invalid_option_prints_usage_and_fails
  (w : world) (argv : list string) (s : state)
  (before after : list getopt_result) (option : ascii) (optarg : string)
  (Hscan : getopt w short_options argv
           = (before ++ (option, optarg) :: after)%list)
  (Hbefore : forallb continues before = true)
  (Hoption : handled_option option = false) :
  printed (trace_of (udev_user w argv s)) = [usage_text] /\
  result_of (udev_user w argv s) = - EINVAL /\
  state_of (udev_user w argv s) = s /\
  no_database_event (trace_of (udev_user w argv s)) = true.
Proof.
  destruct (option_loop_continues w before initial_locals s Hbefore)
    as (l' & t & Hloop & Ht & Hretval).
  unfold handled_option in Hoption; cbn [existsb] in Hoption.
  repeat (apply orb_false_iff in Hoption as [? Hoption]).
  assert (Hall :
    option_loop w (getopt w short_options argv) initial_locals s
    = (Goto_help l', s, (t ++ [Dbg ("option '" ++ String option "'")])%list)).
  { rewrite Hscan, option_loop_app, Hloop.
    cbn [option_loop].
    repeat match goal with
           | H : Ascii.eqb option _ = false |- _ => rewrite H; clear H
           end.
    reflexivity. }
  rewrite (udev_user_after_loop _ _ _ _ _ _ Hall).
  unfold help. rewrite Hretval. run.
  rewrite !printed_app, (only_tracing_printed _ Ht).
  rewrite !no_database_event_app, (only_tracing_no_database_event _ Ht).
  repeat split.
Qed.

Lemma invalid_option_prints_usage_and_fails_witness :
  printed (trace_of (udev_user add_world ["udev"; "-r"; "-x"; "-V"] sda_state))
  = [usage_text] /\
  result_of (udev_user add_world ["udev"; "-r"; "-x"; "-V"] sda_state) = -22 /\
  state_of (udev_user add_world ["udev"; "-r"; "-x"; "-V"] sda_state)
  = sda_state /\
  no_database_event
    (trace_of (udev_user add_world ["udev"; "-r"; "-x"; "-V"] sda_state))
  = true.
Proof.
  exact (invalid_option_prints_usage_and_fails add_world
           ["udev"; "-r"; "-x"; "-V"] sda_state
           [("r"%char, EmptyString)] [("V"%char, EmptyString)]
           "?"%char EmptyString eq_refl eq_refl eq_refl).
Defined.

Lemma find_app {A : Type} (p : A -> bool) (l1 l2 : list A) :
  find p (l1 ++ l2)%list =
  match find p l1 with
  | Some x => Some x
  | None => find p l2
  end.
Proof.
  induction l1 as [|a l1 IH]; [reflexivity|].
  cbn [app find]. destruct (p a); [reflexivity | exact IH].
Qed.

Lemma last_value_cons (c : ascii) (r : getopt_result)
  (results : list getopt_result) :
  last_value c (r :: results) =
  match last_value c results with
  | Some v => Some v
  | None => if Ascii.eqb (fst r) c then Some (snd r) else None
  end.
Proof.
  unfold last_value. cbn [rev]. rewrite find_app.
  destruct (find (fun r0 => Ascii.eqb (fst r0) c) (rev results));
    [reflexivity|].
  cbn [find]. destruct (Ascii.eqb (fst r) c); reflexivity.
Qed.

Lemma option_loop_final_locals (w : world) (results : list getopt_result) :
  forall (l : locals) (s : state),
  forallb continues results = true ->
  exists t,
    option_loop w results l s =
    (Loop_end
       (mk_locals (retval l)
          (root l || existsb (fun r => Ascii.eqb (fst r) "r") results)
          (match last_value "q" results with
           | Some value => query_kind value
           | None => query l
           end)
          (match last_value "p" results with
           | Some value => strfieldcpy w value
           | None => path l
           end)),
     s, t) /\
    only_tracing t = true.
Proof.
  induction results as [|[option optarg] results IH]; intros l s H.
  - exists []. split; [|reflexivity].
    destruct l; cbn. now rewrite orb_false_r.
  - cbn [forallb] in H. apply andb_true_iff in H as [Hc H].
    rewrite !last_value_cons. cbn [fst snd existsb].
    cbn [option_loop]. unfold bind, dbg, emit; cbv beta iota.
    unfold continues in Hc.
    destruct (Ascii.eqb_spec option "p") as [->|Hp].
    { destruct (IH (mk_locals (retval l) (root l) (query l)
                              (strfieldcpy w optarg)) s H)
        as (t & -> & Ht).
      eexists. split;
        [cbn [retval root query path Ascii.eqb Bool.eqb orb];
         destruct (last_value "q" results), (last_value "p" results);
         reflexivity
        |cbn [app only_tracing forallb action_event negb andb]; exact Ht]. }
    destruct (Ascii.eqb_spec option "q") as [->|Hq].
    { cbn [Ascii.eqb Bool.eqb orb andb] in Hc.
      unfold known_query, query_names in Hc; cbn [existsb] in Hc.
      unfold strcmp_eq0.
      destruct (String.eqb optarg "name") eqn:E1;
        [|destruct (String.eqb optarg "symlink") eqn:E2;
          [|destruct (String.eqb optarg "owner") eqn:E3;
            [|destruct (String.eqb optarg "group") eqn:E4;
              [|discriminate]]]];
        match goal with
        | |- context [option_loop w results ?l1 s] =>
            destruct (IH l1 s H) as (t & -> & Ht)
        end;
        (eexists; split;
         [cbn [retval root query path Ascii.eqb Bool.eqb orb];
          destruct (last_value "q" results), (last_value "p" results);
          unfold query_kind; rewrite ?E1, ?E2, ?E3, ?E4;
          reflexivity
         |cbn [app only_tracing forallb action_event negb andb]; exact Ht]). }
    destruct (Ascii.eqb_spec option "r") as [->|Hr].
    { destruct (IH (mk_locals (retval l) true (query l) (path l)) s H)
        as (t & -> & Ht).
      eexists. split;
        [cbn [retval root query path Ascii.eqb Bool.eqb orb];
         rewrite orb_true_r;
         destruct (last_value "q" results), (last_value "p" results);
         reflexivity
        |cbn [app only_tracing forallb action_event negb andb]; exact Ht]. }
    cbn [orb andb] in Hc. discriminate.
Qed.

(** X13: among the options that let the loop go on, the last word counts:
    when every option is [-p], [-r] or a [-q] with a query name, the loop
    ends with the path of the last [-p] (none: the empty path), the kind
    of the last [-q] (none: no query) and the root flag set exactly when
    some [-r] was given, wherever it stood; nothing has been printed or
    touched. *)
Theorem later_options_override_earlier
  (w : world) (results : list getopt_result) (s : state)
  (Hall : forallb continues results = true) :
  exists t,
    option_loop w results initial_locals s =
    (Loop_end
       (mk_locals (- EINVAL)
          (existsb (fun r => Ascii.eqb (fst r) "r") results)
          (match last_value "q" results with
           | Some value => query_kind value
           | None => NONE
           end)
          (match last_value "p" results with
           | Some value => strfieldcpy w value
           | None => EmptyString
           end)),
     s, t) /\
    only_tracing t = true.
Proof. exact (option_loop_final_locals w results initial_locals s Hall). Qed.

Lemma later_options_override_earlier_witness :
  exists t,
    option_loop add_world
      (getopt_results false short_options
         ["-p"; "/block/sda"; "-q"; "name"; "-r"; "-q"; "owner";
          "-p"; "/block/sdb"])
      initial_locals sda_state
    = (Loop_end (mk_locals (- EINVAL) true OWNER "/block/sdb"), sda_state, t)
    /\ only_tracing t = true.
Proof.
  exact (later_options_override_earlier add_world
           (getopt_results false short_options
              ["-p"; "/block/sda"; "-q"; "name"; "-r"; "-q"; "owner";
               "-p"; "/block/sdb"])
           sda_state eq_refl).
Defined.








(** ** The two modes together, and the signal handler *)

Lemma contains_not_empty (haystack needle : string) :
  contains haystack needle -> needle <> EmptyString ->
  haystack <> EmptyString.
Proof.
  intros (before & after & ->) Hneedle Hempty.
  destruct before; [|discriminate].
  destruct needle; [now apply Hneedle | discriminate].
Qed.

(** X16: what the dispatcher adds, the query command line finds: after
    [prog subsystem] has run in hotplug mode with ACTION "add" for an
    accepted devpath, [prog -q name -p devpath] prints the name the
    naming engine chose for the device and returns 0 (the database being
    available to both runs, and the devpath and the name fitting their
    buffers). *)
Theorem added_device_is_found_by_query
  (w1 w2 : world) (prog prog' subsystem devpath : string) (s : state)
  (Hdevpath : get_devpath w1 = Some devpath)
  (Hkind : contains devpath "class" \/ contains devpath "block")
  (Hsubsystem : ~ In subsystem blacklisted_subsystems)
  (Hflag : forall rest, subsystem <> String "-"%char rest)
  (Hadd : get_action w1 = Some "add")
  (Hinit : udevdb_init_result w1 = 0)
  (Hopen : udevdb_open_ro_result w2 = 0)
  (Hfits_path : fits w2 devpath)
  (Hfits_name : fits w2 (name (namedev_rules w1 devpath subsystem))) :
  printed (trace_of
             (main w2 [prog'; "-q"; "name"; "-p"; devpath]
                (state_of (main w1 [prog; subsystem] s))))
  = [name (namedev_rules w1 devpath subsystem) ++ newline] /\
  result_of
    (main w2 [prog'; "-q"; "name"; "-p"; devpath]
       (state_of (main w1 [prog; subsystem] s)))
  = 0.
Proof.
  assert (Hmode : selected_mode [prog; subsystem] = Hotplug).
  { apply selected_mode_hotplug. exists prog, subsystem. auto. }
  assert (Hstate : state_of (main w1 [prog; subsystem] s) =
            mk_state (db_insert_or_update devpath
                        (namedev_rules w1 devpath subsystem) (db s)) false).
  { rewrite main_unfold, Hmode, udev_hotplug_unfold.
    rewrite (hotplug_body_accepted w1 prog subsystem devpath s
               Hdevpath Hkind Hsubsystem), Hadd, Hinit.
    reflexivity. }
  rewrite Hstate.
  set (s1 := mk_state _ false).
  assert (Hcopy : strfieldcpy w2 devpath = devpath).
  { unfold strfieldcpy. apply take_chars_all. unfold fits in Hfits_path. lia. }
  assert (Hloop :
    option_loop w2 (getopt w2 short_options [prog'; "-q"; "name"; "-p"; devpath])
      initial_locals s1
    = (Loop_end (mk_locals (- EINVAL) false NAME devpath), s1,
       [Dbg "option 'q'"; Dbg ("udev query: name" ++ newline);
        Dbg "option 'p'"; Dbg ("udev path: " ++ devpath ++ newline)])).
  { unfold getopt; cbn [tl].
    change (getopt_results (posixly_correct w2) short_options
              ["-q"; "name"; "-p"; devpath])
      with [("q"%char, "name"); ("p"%char, devpath)].
    cbn [option_loop Ascii.eqb Bool.eqb strcmp_eq0 String.eqb].
    unfold bind, dbg, emit, ret; cbv beta iota.
    cbn [retval root query path app]. now rewrite Hcopy. }
  assert (Hne : devpath <> EmptyString).
  { destruct Hkind as [H|H];
      apply (contains_not_empty _ _ H); discriminate. }
  assert (Huser :
    udev_user w2 [prog'; "-q"; "name"; "-p"; devpath] s1 =
    (0, mk_state (db s1) false,
     [Dbg "option 'q'"; Dbg ("udev query: name" ++ newline);
      Dbg "option 'p'"; Dbg ("udev path: " ++ devpath ++ newline);
      Call_udevdb_open_ro; Call_udevdb_get_dev devpath;
      Printf (name (namedev_rules w1 devpath subsystem) ++ newline);
      Call_udevdb_exit])).
  { rewrite (udev_user_after_loop _ _ _ _ _ _ Hloop).
    rewrite process_options_lookup; [|discriminate|exact Hne|exact Hopen].
    cbn [path]. subst s1; cbn [db].
    rewrite db_lookup_insert_or_update.
    rewrite query_result_resolved; [reflexivity | exact Hfits_name]. }
  rewrite main_unfold.
  change (selected_mode [prog'; "-q"; "name"; "-p"; devpath]) with Query.
  rewrite Huser. split; reflexivity.
Qed.

Lemma added_device_is_found_by_query_witness :
  printed (trace_of
             (main add_world ["udev"; "-q"; "name"; "-p"; "/block/sda"]
                (state_of (main add_world ["udev"; "block"] empty_state))))
  = ["sda" ++ newline] /\
  result_of
    (main add_world ["udev"; "-q"; "name"; "-p"; "/block/sda"]
       (state_of (main add_world ["udev"; "block"] empty_state)))
  = 0.
Proof.
  assert (Hk : contains "/block/sda" "class" \/ contains "/block/sda" "block")
    by (right; exists "/", "/sda"; reflexivity).
  assert (Hs : ~ In "block" blacklisted_subsystems)
    by (simpl; intuition discriminate).
  assert (Hf : forall rest, "block" <> String "-"%char rest)
    by (intros rest; discriminate).
  assert (Hp : fits add_world "/block/sda") by (unfold fits; cbn; lia).
  assert (Hn : fits add_world (name (namedev_rules add_world "/block/sda"
                                                   "block")))
    by (unfold fits; cbn; lia).
  exact (added_device_is_found_by_query add_world add_world "udev" "udev"
           "block" "/block/sda" empty_state
           eq_refl Hk Hs Hf eq_refl eq_refl eq_refl Hp Hn).
Defined.

(** X17: the signal handler ends the process exactly for SIGINT, SIGTERM
    and SIGKILL, with status 20 plus the signal number (so never 0), after
    disconnecting the bus and releasing the database handle; any other
    signal is only traced and changes nothing.  It never changes a
    record, and handling the signal again finds nothing left to do: the
    state after a second run is the state after the first. *)
Theorem sig_handler_tears_down_then_exits (signum : Z) (s : state) :
  db (state_of (sig_handler signum s)) = db s /\
  state_of (sig_handler signum (state_of (sig_handler signum s)))
  = state_of (sig_handler signum s) /\
  (In signum [signo SIGINT; signo SIGTERM; signo SIGKILL] <->
   result_of (sig_handler signum s) = Some (20 + signum)) /\
  match result_of (sig_handler signum s) with
  | Some status =>
      20 < status /\
      db_open (state_of (sig_handler signum s)) = false /\
      trace_of (sig_handler signum s)
      = [Dbg ("caught signal " ++ decimal signum);
         Call_sysbus_disconnect; Call_udevdb_exit]
  | None =>
      state_of (sig_handler signum s) = s /\
      only_tracing (trace_of (sig_handler signum s)) = true
  end.
Proof.
  unfold sig_handler; cbn [signo].
  destruct (Z.eqb_spec signum 2) as [->|H2]; [cbn; intuition lia|].
  destruct (Z.eqb_spec signum 15) as [->|H15]; [cbn; intuition lia|].
  destruct (Z.eqb_spec signum 9) as [->|H9]; [cbn; intuition lia|].
  cbn [orb]. run. cbn [In].
  repeat split; try reflexivity.
  - intros [H|[H|[H|[]]]]; congruence.
  - discriminate.
Qed.
